(** * Perplexity API client: configuration, transcript and error classification

    A shallow embedding of [perplexity_api_client/perplexity.py],
    [exceptions.py] and [types.py].

    - Python values are an inductive type [pyval]; [py_type], [isinstance],
      [py_eq] and [py_truthy] follow the interpreter on the built-in types.
    - The client object is the record [Perplexity]; methods that mutate it
      are computations in a small state-and-exception monad [M], so that a
      mutation made before an exception is raised stays visible.
    - The HTTP session is a parameter [net : payload -> http_outcome]: each
      request either returns a [response] or raises a [RequestException]. *)

From Stdlib Require Import ZArith String List Bool Lia.
From Stdlib Require Import SpecFloat.
From stdpp Require Import base option list strings gmap fin_maps.

Open Scope string_scope.
Open Scope Z_scope.

Set Warnings "-register-all".

(** ** Python values *)

Module Py.

(** The enum of [types.py]; each member's value is a string. *)
Inductive ResponseFormatType : Type := RAW | TEXT | JSON | LLM_RESPONSE.

(** The values a configuration entry, a JSON body or a transcript entry can
    hold. Floats are IEEE binary64 numbers in the [spec_float] form; the keys
    of a dict are strings (keyword arguments and JSON objects have no other),
    each held once, in insertion order; [PEnum] is a member of
    [ResponseFormatType], the one class of this package that reaches an
    argument. *)
Inductive pyval : Type :=
| PNone
| PBool (b : bool)
| PInt (z : Z)
| PFloat (f : spec_float)
| PStr (s : string)
| PList (l : list pyval)
| PDict (items : list (string * pyval))
| PEnum (m : ResponseFormatType).

Inductive pytype : Type :=
| TNoneType | TBool | TInt | TFloat | TStr | TList | TDict
| TResponseFormatType.

(** [type(v)] *)
Definition py_type (v : pyval) : pytype :=
  match v with
  | PNone => TNoneType
  | PBool _ => TBool
  | PInt _ => TInt
  | PFloat _ => TFloat
  | PStr _ => TStr
  | PList _ => TList
  | PDict _ => TDict
  | PEnum _ => TResponseFormatType
  end.

Definition pytype_eqb (a b : pytype) : bool :=
  match a, b with
  | TNoneType, TNoneType | TBool, TBool | TInt, TInt | TFloat, TFloat
  | TStr, TStr | TList, TList | TDict, TDict
  | TResponseFormatType, TResponseFormatType => true
  | _, _ => false
  end.

(** [issubclass(a, b)] on the built-in classes: [bool] derives from [int]. *)
Definition issubclass (a b : pytype) : bool :=
  match a, b with
  | TBool, TInt => true
  | _, _ => pytype_eqb a b
  end.

(** [isinstance(v, t)] *)
Definition isinstance (v : pyval) (t : pytype) : bool :=
  issubclass (py_type v) t.

(** [v is None] *)
Definition is_none (v : pyval) : bool :=
  match v with PNone => true | _ => false end.

(** The integer a bool stands for in arithmetic and comparisons. *)
Definition int_of_bool (b : bool) : Z := if b then 1 else 0.

(** [f == z] for a float and an int: Python compares the exact values. *)
Definition float_eq_int (f : spec_float) (z : Z) : bool :=
  match f with
  | S754_zero _ => z =? 0
  | S754_finite s m e =>
      let mz := if s then Z.neg m else Z.pos m in
      if 0 <=? e then z =? mz * 2 ^ e
      else (mz mod 2 ^ (- e) =? 0) && (z =? mz / 2 ^ (- e))
  | S754_infinity _ | S754_nan => false
  end.

Definition member_eqb (a b : ResponseFormatType) : bool :=
  match a, b with
  | RAW, RAW | TEXT, TEXT | JSON, JSON | LLM_RESPONSE, LLM_RESPONSE => true
  | _, _ => false
  end.

Definition assoc (k : string) (d : list (string * pyval)) : option pyval :=
  snd <$> List.find (fun kv => String.eqb (fst kv) k) d.

(** [a == b]. Numbers compare by value across bool, int and float; a NaN is
    unequal to everything; sequences compare element by element and dicts
    entry by entry. (The interpreter first compares the elements of a
    container by identity; object identity is not part of this model.) *)
Fixpoint py_eq (a b : pyval) {struct a} : bool :=
  match a, b with
  | PNone, PNone => true
  | PBool x, PBool y => Bool.eqb x y
  | PBool x, PInt y => int_of_bool x =? y
  | PInt x, PBool y => x =? int_of_bool y
  | PInt x, PInt y => x =? y
  | PFloat x, PFloat y => SFeqb x y
  | PFloat x, PInt y => float_eq_int x y
  | PInt x, PFloat y => float_eq_int y x
  | PFloat x, PBool y => float_eq_int x (int_of_bool y)
  | PBool x, PFloat y => float_eq_int y (int_of_bool x)
  | PStr x, PStr y => String.eqb x y
  | PList l1, PList l2 =>
      (fix go (l1 l2 : list pyval) {struct l1} : bool :=
         match l1, l2 with
         | [], [] => true
         | x :: xs, y :: ys => py_eq x y && go xs ys
         | _, _ => false
         end) l1 l2
  | PDict d1, PDict d2 =>
      (length d1 =? length d2)%nat &&
      (fix go (d : list (string * pyval)) {struct d} : bool :=
         match d with
         | [] => true
         | (k, v) :: r =>
             match assoc k d2 with
             | Some v' => py_eq v v'
             | None => false
             end && go r
         end) d1
  | PEnum x, PEnum y => member_eqb x y
  | _, _ => false
  end.

(** [a != b] *)
Definition py_ne (a b : pyval) : bool := negb (py_eq a b).

(** [bool(v)]: the test of an [if] and of [or]. *)
Definition py_truthy (v : pyval) : bool :=
  match v with
  | PNone => false
  | PBool b => b
  | PInt z => negb (z =? 0)
  | PFloat f => match f with S754_zero _ => false | _ => true end
  | PStr s => negb (String.eqb s "")
  | PList l => match l with [] => false | _ => true end
  | PDict d => match d with [] => false | _ => true end
  | PEnum _ => true
  end.

(** [a or b] on strings, with [None] for an omitted argument. *)
Definition str_or (a : option string) (b : string) : string :=
  match a with
  | Some s => if String.eqb s "" then b else s
  | None => b
  end.

(** An f-string, kept as its literal pieces and interpolated values. *)
Inductive fpart : Type :=
| Lit (s : string)
| Fmt (v : pyval)
| FmtType (t : pytype).

Definition fstring := list fpart.

End Py.
Export Py.

(** ** Exceptions ([exceptions.py] and the built-in ones the code meets) *)

Record response : Type := mkResponse {
  status_code : Z;
  text : string;
  json_body : option pyval   (* [None]: [response.json()] raises ValueError *)
}.

(** A [requests.exceptions.RequestException]: its [str(e)] and [e.response]. *)
Record request_exception : Type := mkRequestException {
  exc_str : string;
  exc_response : option response
}.

Inductive pyexc : Type :=
| TypeError (msg : fstring)
| ValueError (msg : fstring)
| KeyError (key : pyval)
| IndexError
| RequestException (e : request_exception)
| PerplexityAPIError (msg : fstring) (status : option Z)
    (cause : request_exception)
| PerplexityAuthError (args : fstring * option Z)
| PerplexityConfigError (args : fstring * option Z).

(** [e.status_code] of a [PerplexityAPIError]. *)
Definition api_status_code (e : pyexc) : option (option Z) :=
  match e with
  | PerplexityAPIError _ st _ => Some st
  | _ => None
  end.

Definition is_ConfigError (e : pyexc) : bool :=
  match e with PerplexityConfigError _ => true | _ => false end.
Definition is_AuthError (e : pyexc) : bool :=
  match e with PerplexityAuthError _ => true | _ => false end.
Definition is_APIError (e : pyexc) : bool :=
  match e with PerplexityAPIError _ _ _ => true | _ => false end.
Definition is_TypeError (e : pyexc) : bool :=
  match e with TypeError _ => true | _ => false end.

(** The outcome of a computation that may raise. *)
Inductive result (A : Type) : Type :=
| Ok (a : A)
| Raise (e : pyexc).
Arguments Ok {A} a.
Arguments Raise {A} e.

Definition raised_with {A} (P : pyexc -> bool) (r : result A) : Prop :=
  match r with
  | Raise e => P e = true
  | Ok _ => False
  end.

(** ** The default configuration (class attribute [default_config]) *)

Definition float_0_2 : spec_float := S754_finite false 7205759403792794 (-55).
Definition float_0_9 : spec_float := S754_finite false 8106479329266893 (-53).

Definition default_config_items : list (string * pyval) :=
  [ ("max_tokens", PNone);
    ("temperature", PFloat float_0_2);
    ("top_p", PFloat float_0_9);
    ("search_domain_filter", PList []);
    ("return_images", PBool false);
    ("return_related_questions", PBool false);
    ("search_recency_filter", PStr "month");
    ("top_k", PInt 0);
    ("stream", PBool false);
    ("presence_penalty", PInt 0);
    ("frequency_penalty", PInt 1) ].

Definition default_config : gmap string pyval :=
  list_to_map default_config_items.

(** [default_config.get(key)]: [None] for a missing key. *)
Definition default_get (key : string) : pyval :=
  default (PNone) (default_config !! key).

(** ** [validate_config] and [is_config_valid] (class methods) *)

(** The loop of [validate_config] over [config.items()]. *)
Fixpoint validate_items (items : list (string * pyval)) : result unit :=
  match items with
  | [] => Ok tt
  | (key, value) :: rest =>
      match default_config !! key with
      | None =>
          Raise (PerplexityConfigError
                   ([Lit "Invalid configuration key: "; Fmt (PStr key)], None))
      | Some d =>
          if negb (is_none d) && negb (isinstance value (py_type d))
          then Raise (PerplexityConfigError
                        ([Lit "Invalid configuration value for key: ";
                          Fmt (PStr key)], None))
          else validate_items rest
      end
  end.

Definition validate_config (config : pyval) : result unit :=
  match config with
  | PDict items => validate_items items
  | _ => Raise (TypeError [Lit "The configuration must be a dictionary"])
  end.

(** Whether the loop of [validate_config] raises at the entry [(k, v)]. *)
Definition entry_rejected (k : string) (v : pyval) : bool :=
  match default_config !! k with
  | None => true
  | Some d => negb (is_none d) && negb (isinstance v (py_type d))
  end.

(** [is_config_valid]: only [PerplexityConfigError] is caught. *)
Definition is_config_valid (config : pyval) : result bool :=
  match validate_config config with
  | Ok _ => Ok true
  | Raise (PerplexityConfigError _) => Ok false
  | Raise e => Raise e
  end.

(** ** [ResponseFormatType.validate_response_type] ([types.py]) *)

Definition member_value (m : ResponseFormatType) : string :=
  match m with
  | RAW => "raw"
  | TEXT => "text"
  | JSON => "json"
  | LLM_RESPONSE => "llm_response"
  end.

Definition members : list ResponseFormatType := [RAW; TEXT; JSON; LLM_RESPONSE].

(** [cls(value)]: a member is returned as it is, any other value is looked
    up among the members' values. *)
Definition member_of_value (v : pyval) : option ResponseFormatType :=
  match v with
  | PEnum m => Some m
  | _ => List.find (fun m => py_eq (PStr (member_value m)) v) members
  end.

Definition validate_response_type (response_type : pyval) : result unit :=
  if negb (isinstance response_type TStr
           || isinstance response_type TResponseFormatType)
  then Raise (TypeError [Lit "Invalid argument type: ";
                         FmtType (py_type response_type);
                         Lit ". Expected str or ";
                         Lit "ResponseFormatType"])
  else match member_of_value response_type with
       | Some _ => Ok tt
       | None =>
           Raise (ValueError [Lit "Invalid response_type: ";
                              Fmt response_type;
                              Lit ". Valid options are: ";
                              Fmt (PList (map (fun m => PStr (member_value m))
                                              members))])
       end.

(** ** The client object and the monad of its methods *)

(** One entry of [chat_history]: [{"role": ..., "content": ...}]. *)
Record turn : Type := mkTurn {
  role : string;
  content : pyval
}.

Record Perplexity : Type := mkPerplexity {
  auth_token : string;
  model : string;
  system_role : string;
  chat_history : list turn;
  __config : gmap string pyval;
  session_headers : list (string * string)
}.

(** A method body: it reads and updates [self] and returns or raises; the
    state reached is kept in both cases. *)
Definition M (A : Type) : Type := Perplexity -> result A * Perplexity.

Definition ret {A} (a : A) : M A := fun self => (Ok a, self).

Definition bind {A B} (c : M A) (k : A -> M B) : M B :=
  fun self =>
    match c self with
    | (Ok a, self') => k a self'
    | (Raise e, self') => (Raise e, self')
    end.

Definition raise {A} (e : pyexc) : M A := fun self => (Raise e, self).

Definition lift {A} (r : result A) : M A := fun self => (r, self).

Definition get_self : M Perplexity := fun self => (Ok self, self).

Definition put_self (s : Perplexity) : M unit := fun _ => (Ok tt, s).

(** [try: c except RequestException as e: h e]; any other exception goes
    through. *)
Definition try_except_RequestException {A}
    (c : M A) (h : request_exception -> M A) : M A :=
  fun self =>
    match c self with
    | (Raise (RequestException e), self') => h e self'
    | other => other
    end.

Notation "'do' x <- c ;; k" := (bind c (fun x => k))
  (at level 10, x name, c at level 99, k at level 200).
Notation "'run' c ;; k" := (bind c (fun _ => k))
  (at level 10, c at level 99, k at level 200).

(** [self.chat_history.append(t)] *)
Definition append_history_turn (t : turn) : M unit :=
  fun self =>
    (Ok tt,
     {| auth_token := auth_token self; model := model self;
        system_role := system_role self;
        chat_history := chat_history self ++ [t];
        __config := __config self;
        session_headers := session_headers self |}).

(** [self.__config = c] *)
Definition set_store (c : gmap string pyval) : M unit :=
  fun self =>
    (Ok tt,
     {| auth_token := auth_token self; model := model self;
        system_role := system_role self;
        chat_history := chat_history self;
        __config := c;
        session_headers := session_headers self |}).

(** ** Validation of the identity and of the configuration *)

(** [not s] for a string. *)
Definition str_empty (s : string) : bool := String.eqb s "".

Definition _validate_required_params
    (api_key model_arg system_role_arg : option string) : M unit :=
  do self <- get_self ;;
  let api_key := str_or api_key (auth_token self) in
  let model_name := str_or model_arg (model self) in
  let system_role_name := str_or system_role_arg (system_role self) in
  if str_empty api_key
  then raise (PerplexityAuthError ([Lit "API key is required"], None))
  else if str_empty model_name
  then raise (PerplexityConfigError ([Lit "Model name is required"], None))
  else if str_empty system_role_name
  then raise (PerplexityConfigError ([Lit "System role is required"], None))
  else ret tt.

(** The loop of [_validate_and_set_config]: an entry that differs from the
    default is assigned into the store, any other entry is passed over. *)
Definition store_items (items : list (string * pyval))
    (store : gmap string pyval) : gmap string pyval :=
  foldl (fun st kv =>
           if py_ne (snd kv) (default_get (fst kv))
           then <[fst kv := snd kv]> st
           else st)
        store items.

(** [config.items()] *)
Definition dict_items (config : pyval) : list (string * pyval) :=
  match config with
  | PDict items => items
  | _ => []
  end.

Definition _validate_and_set_config (config : pyval) : M unit :=
  run lift (validate_config config) ;;
  do self <- get_self ;;
  set_store (store_items (dict_items config) (__config self)).

(** The dict comprehension of [_get_validated_config]. *)
Definition non_default_items (items : list (string * pyval))
    : gmap string pyval :=
  store_items items ∅.

Definition _get_validated_config (config : pyval)
    : M (gmap string pyval) :=
  run lift (validate_config config) ;;
  ret (non_default_items (dict_items config)).

(** ** Construction and configuration methods *)

Definition __init__ (api_key model_name system_role_name : string)
    (config : pyval) : result Perplexity :=
  let self0 :=
    {| auth_token := api_key; model := model_name;
       system_role := system_role_name;
       chat_history := []; __config := ∅; session_headers := [] |} in
  let body : M unit :=
    run _validate_required_params None None None ;;
    run (fun self =>
       (Ok tt,
        {| auth_token := auth_token self; model := model self;
           system_role := system_role self;
           chat_history :=
             [ {| role := "system"; content := PStr (system_role self) |} ];
           __config := ∅;
           session_headers := session_headers self |})) ;;
    run (if negb (is_none config) then _validate_and_set_config config
         else ret tt) ;;
    (fun self =>
       (Ok tt,
        {| auth_token := auth_token self; model := model self;
           system_role := system_role self;
           chat_history := chat_history self;
           __config := __config self;
           session_headers :=
             [ ("Authorization", "Bearer " ++ api_key);
               ("Content-Type", "application/json") ] |}))
  in
  match body self0 with
  | (Ok _, self) => Ok self
  | (Raise e, _) => Raise e
  end.

(** The [config] property: the defaults overlaid by the stored overrides,
    without the entries whose value is [None]. *)
Definition config (self : Perplexity) : gmap string pyval :=
  filter (fun kv => is_none (snd kv) = false)
         (__config self ∪ default_config).

Definition set_config (kwargs : list (string * pyval)) : M unit :=
  _validate_and_set_config (PDict kwargs).

Definition reset_config : M unit := set_store ∅.

(** ** The HTTP session *)

(** The JSON body of a request: the model, the messages and the
    configuration entries spread after them. *)
Record payload : Type := mkPayload {
  p_model : string;
  p_messages : list turn;
  p_config : gmap string pyval
}.

(** [session.request(...)] returns a response or raises a
    [RequestException] (a timeout or a connection error carries no response). *)
Inductive http_outcome : Type :=
| Returned (r : response)
| Failed (e : request_exception).

(** [requests]: a status from 400 to 599 is an error status. *)
Definition is_error_status (r : response) : bool :=
  (400 <=? status_code r) && (status_code r <? 600).

(** [response.raise_for_status()] raises an [HTTPError], a
    [RequestException] that carries the response, on an error status. (Its
    text, which [requests] builds from the status line and the URL, is
    shortened to the name of the class.) *)
Definition raise_for_status (r : response) : result unit :=
  if is_error_status r
  then Raise (RequestException
                {| exc_str := "HTTPError"; exc_response := Some r |})
  else Ok tt.

(** [response.ok]: true unless [raise_for_status] raises. *)
Definition ok (r : response) : bool :=
  match raise_for_status r with
  | Ok _ => true
  | Raise _ => false
  end.

Definition request (net : payload -> http_outcome) (p : payload) : M response :=
  match net p with
  | Returned r => ret r
  | Failed e => raise (RequestException e)
  end.

(** ** Subscripting and [_format_response] *)

Inductive subscript : Type :=
| Key (k : string)
| Index (i : Z).

Definition subscript_val (s : subscript) : pyval :=
  match s with
  | Key k => PStr k
  | Index i => PInt i
  end.

(** The position an index denotes in a sequence of length [n]; a negative
    index counts from the end. *)
Definition seq_position (i : Z) (n : nat) : option nat :=
  let j := if i <? 0 then i + Z.of_nat n else i in
  if (0 <=? j) && (j <? Z.of_nat n) then Some (Z.to_nat j) else None.

(** [v[s]] *)
Definition py_getitem (v : pyval) (s : subscript) : result pyval :=
  match v, s with
  | PDict d, Key k =>
      match assoc k d with
      | Some x => Ok x
      | None => Raise (KeyError (PStr k))
      end
  | PDict d, Index i => Raise (KeyError (PInt i))
  | PList l, Index i =>
      match seq_position i (length l) with
      | Some n =>
          match nth_error l n with
          | Some x => Ok x
          | None => Raise IndexError
          end
      | None => Raise IndexError
      end
  | PStr t, Index i =>
      match seq_position i (String.length t) with
      | Some n => Ok (PStr (String.substring n 1 t))
      | None => Raise IndexError
      end
  | PList _, Key _ =>
      Raise (TypeError [Lit "list indices must be integers or slices, not str"])
  | PStr _, Key _ =>
      Raise (TypeError [Lit "string indices must be integers, not 'str'"])
  | _, _ =>
      Raise (TypeError [FmtType (py_type v); Lit " object is not subscriptable"])
  end.

(** [json_data["choices"][0]["message"]["content"]] *)
Definition first_choice_content (json_data : pyval) : result pyval :=
  match py_getitem json_data (Key "choices") with
  | Raise e => Raise e
  | Ok choices =>
      match py_getitem choices (Index 0) with
      | Raise e => Raise e
      | Ok choice =>
          match py_getitem choice (Key "message") with
          | Raise e => Raise e
          | Ok message => py_getitem message (Key "content")
          end
      end
  end.

(** The four views of a response. *)
Record formatted : Type := mkFormatted {
  f_raw : response;
  f_text : string;
  f_json : pyval;
  f_llm_response : pyval
}.

(** [except (ValueError, KeyError)] resets both parsed views to [None];
    another exception leaves [_format_response]. *)
Definition _format_response (r : response) : result formatted :=
  let fallback :=
    {| f_raw := r; f_text := text r;
       f_json := PNone; f_llm_response := PNone |} in
  match json_body r with
  | None => Ok fallback
  | Some json_data =>
      match first_choice_content json_data with
      | Ok c =>
          Ok {| f_raw := r; f_text := text r;
                f_json := json_data; f_llm_response := c |}
      | Raise (KeyError _) | Raise (ValueError _) => Ok fallback
      | Raise e => Raise e
      end
  end.

(** What [ask] and [chat] return: the response object or a value. *)
Inductive view : Type :=
| VResponse (r : response)
| VValue (v : pyval).

(** [formatted_response[response_type]]: the keys of the dict are the four
    strings, and no other value is equal to one of them. *)
Definition formatted_getitem (f : formatted) (response_type : pyval)
    : result view :=
  match response_type with
  | PStr k =>
      if String.eqb k "raw" then Ok (VResponse (f_raw f))
      else if String.eqb k "text" then Ok (VValue (PStr (f_text f)))
      else if String.eqb k "json" then Ok (VValue (f_json f))
      else if String.eqb k "llm_response" then Ok (VValue (f_llm_response f))
      else Raise (KeyError response_type)
  | _ => Raise (KeyError response_type)
  end.

(** ** [_raise_error_message] *)

Definition newline : string := String (Ascii.ascii_of_nat 10) EmptyString.

Definition _raise_error_message {A} (e : request_exception) : M A :=
  let error_msg := [Lit "Request failed: "; Fmt (PStr (exc_str e))] in
  let api_error msg :=
    raise (PerplexityAPIError msg (status_code <$> exc_response e) e) in
  match exc_response e with
  | Some r =>
      let status := status_code r in
      let error_msg :=
        (error_msg ++
         [Lit (newline ++ "Status code: "); Fmt (PInt status)])%list in
      let error_msg :=
        (error_msg ++
         match json_body r with
         | Some j => [Lit (newline ++ "Response: "); Fmt j]
         | None => [Lit (newline ++ "Response: "); Fmt (PStr (text r))]
         end)%list in
      if status =? 400
      then raise (PerplexityConfigError (error_msg, Some status))
      else if status =? 401
      then raise (PerplexityAuthError (error_msg, Some status))
      else api_error error_msg
  | None => api_error error_msg
  end.

(** ** [ask] and [chat]

    Each method is split where its [try] starts: the statements before it
    check the arguments and build the payload, the [try] block sends it. *)

(** [ask], up to the payload. *)
Definition ask_prepare
    (message : string) (model_arg system_role_arg : option string)
    (response_type : pyval) (config_kwargs : list (string * pyval))
    : M payload :=
  do self <- get_self ;;
  let model_name := str_or model_arg (model self) in
  let system_role_name := str_or system_role_arg (system_role self) in
  run _validate_required_params None (Some model_name) (Some system_role_name) ;;
  do cfg <- _get_validated_config (PDict config_kwargs) ;;
  run lift (validate_response_type response_type) ;;
  ret {| p_model := model_name;
         p_messages :=
           [ {| role := "system"; content := PStr system_role_name |};
             {| role := "user"; content := PStr message |} ];
         p_config := cfg |}.

(** The [try] block of [ask] and its [except] clause. *)
Definition ask_send (net : payload -> http_outcome)
    (message : string) (append_history : bool) (response_type : pyval)
    (p : payload) : M view :=
  try_except_RequestException
    (do r <- request net p ;;
     if ok r
     then
       do f <- lift (_format_response r) ;;
       run (if append_history && py_truthy (f_llm_response f)
            then
              run append_history_turn
                    {| role := "user"; content := PStr message |} ;;
              append_history_turn
                {| role := "assistant"; content := f_llm_response f |}
            else ret tt) ;;
       lift (formatted_getitem f response_type)
     else
       run lift (raise_for_status r) ;;
       ret (VValue PNone))
    _raise_error_message.

Definition ask (net : payload -> http_outcome)
    (message : string) (model_arg system_role_arg : option string)
    (append_history : bool) (response_type : pyval)
    (config_kwargs : list (string * pyval)) : M view :=
  let append_history := append_history || false in
  do p <- ask_prepare message model_arg system_role_arg
            response_type config_kwargs ;;
  ask_send net message append_history response_type p.

(** [chat], up to the payload: the user turn is appended here. *)
Definition chat_prepare (message : string) (response_type : pyval)
    : M payload :=
  run lift (validate_response_type response_type) ;;
  run _validate_required_params None None None ;;
  run append_history_turn {| role := "user"; content := PStr message |} ;;
  do self <- get_self ;;
  ret {| p_model := model self;
         p_messages := chat_history self;
         p_config := __config self |}.

(** The [try] block of [chat] and its [except] clause. *)
Definition chat_send (net : payload -> http_outcome)
    (response_type : pyval) (p : payload) : M view :=
  try_except_RequestException
    (do r <- request net p ;;
     if ok r
     then
       do f <- lift (_format_response r) ;;
       run (if py_truthy (f_llm_response f)
            then append_history_turn
                   {| role := "assistant"; content := f_llm_response f |}
            else ret tt) ;;
       lift (formatted_getitem f response_type)
     else
       run lift (raise_for_status r) ;;
       ret (VValue PNone))
    _raise_error_message.

Definition chat (net : payload -> http_outcome)
    (message : string) (response_type : pyval) : M view :=
  do p <- chat_prepare message response_type ;;
  chat_send net response_type p.

(** How a request fails: the transport raises ([e.response] may be absent),
    or the response returned has an error status. *)
Definition failure_of (o : http_outcome) : option (option response) :=
  match o with
  | Failed e => Some (exc_response e)
  | Returned r => if ok r then None else Some (Some r)
  end.

(** The call raised a [PerplexityAPIError] whose [status_code] is [st]. *)
Definition raised_APIError {A} (st : option Z) (r : result A) : Prop :=
  match r with
  | Raise e => api_status_code e = Some st
  | Ok _ => False
  end.

(** Calls made one after the other, each on the state the previous one
    left, whether it returned or raised. *)
Definition run_all (calls : list (M unit)) (self : Perplexity) : Perplexity :=
  foldl (fun s c => snd (c s)) self calls.

(** A computation that leaves the client as it found it. *)
Definition read_only {A} (c : M A) : Prop :=
  forall self, snd (c self) = self.

(** The classification of a failed request: status 400 is a
    [PerplexityConfigError], 401 a [PerplexityAuthError], any other status a
    [PerplexityAPIError] carrying it, and a failure without a response a
    [PerplexityAPIError] whose [status_code] is [None]. *)
Definition remote_failure_classified {A}
    (failure : option response) (r : result A) : Prop :=
  match failure with
  | None => raised_APIError None r
  | Some resp =>
      (status_code resp = 400 -> raised_with is_ConfigError r) /\
      (status_code resp = 401 -> raised_with is_AuthError r) /\
      (status_code resp <> 400 -> status_code resp <> 401 ->
       raised_APIError (Some (status_code resp)) r)
  end.

(** The four strings a response type can be. *)
Definition response_type_strings : list pyval :=
  map (fun m => PStr (member_value m)) members.

(** ** Sample values used by the examples below *)

Definition float_0_8 : spec_float := S754_finite false 7205759403792794 (-53).

Definition sample_client : Perplexity :=
  {| auth_token := "test-api-key"; model := "test-model";
     system_role := "test-role";
     chat_history := [ {| role := "system"; content := PStr "test-role" |} ];
     __config := ∅;
     session_headers :=
       [ ("Authorization", "Bearer test-api-key");
         ("Content-Type", "application/json") ] |}.

(** The client after [set_config(temperature=0.8)]. *)
Definition client_with_override : Perplexity :=
  snd (set_config [("temperature", PFloat float_0_8)] sample_client).

(** A response whose body is [{"choices":[{"message":{"content":"X"}}]}]. *)
Definition response_X : response :=
  {| status_code := 200;
     text := "{choices:[{message:{content:X}}]}";
     json_body :=
       Some (PDict [("choices",
                     PList [PDict [("message",
                                    PDict [("content", PStr "X")])]])]) |}.

Definition response_with_status (st : Z) : response :=
  {| status_code := st; text := "error"; json_body := None |}.

Definition timeout_error : request_exception :=
  {| exc_str := "Timeout"; exc_response := None |}.

(** ** Notions used to describe the rest of the client *)

(** The client with its transcript replaced. *)
Definition with_history (self : Perplexity) (h : list turn) : Perplexity :=
  {| auth_token := auth_token self; model := model self;
     system_role := system_role self;
     chat_history := h;
     __config := __config self;
     session_headers := session_headers self |}.

Definition system_turn (s : string) : turn :=
  {| role := "system"; content := PStr s |}.
Definition user_turn (m : string) : turn :=
  {| role := "user"; content := PStr m |}.
Definition assistant_turn (c : pyval) : turn :=
  {| role := "assistant"; content := c |}.

(** The value the loop of [_validate_and_set_config] leaves for the key
    [k]: that of the last entry for [k] that differs from the default. *)
Fixpoint last_override (k : string) (items : list (string * pyval))
    : option pyval :=
  match items with
  | [] => None
  | (k', v) :: rest =>
      match last_override k rest with
      | Some w => Some w
      | None =>
          if String.eqb k' k && py_ne v (default_get k') then Some v else None
      end
  end.

(** Every stored override names a key of the default mapping, passes the
    type check of [validate_config] and differs from its default. *)
Definition store_wf (store : gmap string pyval) : Prop :=
  forall k v, store !! k = Some v ->
    entry_rejected k v = false /\ py_ne v (default_get k) = true.

(** The transcripts the methods build: the system turn, then user turns,
    each followed or not by the assistant's non-empty answer. *)
Inductive transcript_wf : list turn -> Prop :=
| wf_system (s : string) : transcript_wf [system_turn s]
| wf_user (h : list turn) (m : string) :
    transcript_wf h -> transcript_wf (h ++ [user_turn m])
| wf_exchange (h : list turn) (m : string) (c : pyval) :
    transcript_wf h -> py_truthy c = true ->
    transcript_wf (h ++ [user_turn m; assistant_turn c]).

(** A call of one of the public methods of a client. *)
Inductive method_call : Type :=
| call_set_config (kwargs : list (string * pyval))
| call_reset_config
| call_ask (net : payload -> http_outcome) (message : string)
    (model_arg system_role_arg : option string) (append_history : bool)
    (response_type : pyval) (config_kwargs : list (string * pyval))
| call_chat (net : payload -> http_outcome) (message : string)
    (response_type : pyval).

(** The client a call leaves, whether it returned or raised. *)
Definition after_call (c : method_call) (self : Perplexity) : Perplexity :=
  match c with
  | call_set_config kwargs => snd (set_config kwargs self)
  | call_reset_config => snd (reset_config self)
  | call_ask net message model_arg system_role_arg append_history
      response_type config_kwargs =>
      snd (ask net message model_arg system_role_arg append_history
             response_type config_kwargs self)
  | call_chat net message response_type =>
      snd (chat net message response_type self)
  end.

Definition after_calls (cs : list method_call) (self : Perplexity)
    : Perplexity :=
  foldl (fun s c => after_call c s) self cs.

(** The first entry of [items] that [validate_config] rejects. *)
Definition first_rejected (items : list (string * pyval))
    : option (string * pyval) :=
  List.find (fun kv => entry_rejected (fst kv) (snd kv)) items.

(** * Properties *)

(** ** The default mapping *)

Lemma default_config_entry (k : string) (d : pyval) :
  default_config !! k = Some d -> In (k, d) default_config_items.
Proof.
  intros H. apply list_elem_of_In.
  unfold default_config in H. by apply elem_of_list_to_map_2.
Qed.

(** Case analysis over the eleven entries of the default mapping. *)
Ltac default_cases H :=
  apply default_config_entry in H; simpl in H;
  repeat (destruct H as [H | H]; [inversion H; subst; clear H |]);
  [.. | contradiction].

Lemma default_self_equal (k : string) (d : pyval) :
  default_config !! k = Some d -> py_eq d d = true.
Proof. intros H. default_cases H; reflexivity. Qed.

Lemma default_isinstance_own_type (v : pyval) : isinstance v (py_type v) = true.
Proof. by destruct v. Qed.

Lemma default_get_lookup (k : string) (d : pyval) :
  default_config !! k = Some d -> default_get k = d.
Proof. unfold default_get. by intros ->. Qed.

(** ** Validation *)

Section Validation.

Implicit Types (items rest : list (string * pyval)) (k : string) (v d : pyval).

Lemma validate_items_cons k v rest :
  validate_items ((k, v) :: rest) =
  if entry_rejected k v
  then match validate_items [(k, v)] with
       | Raise e => Raise e
       | Ok _ => Ok tt
       end
  else validate_items rest.
Proof.
  unfold entry_rejected. simpl.
  destruct (default_config !! k) as [d|]; [|done].
  by destruct (negb (is_none d) && negb (isinstance v (py_type d))).
Qed.

Lemma validate_items_raises_ConfigError items e :
  validate_items items = Raise e -> is_ConfigError e = true.
Proof.
  induction items as [|[k v] rest IH]; simpl; [done|].
  destruct (default_config !! k) as [d|].
  - destruct (negb (is_none d) && negb (isinstance v (py_type d))).
    + by intros [= <-].
    + exact IH.
  - by intros [= <-].
Qed.

Lemma validate_items_rejected items k v :
  In (k, v) items -> entry_rejected k v = true ->
  raised_with is_ConfigError (validate_items items).
Proof.
  induction items as [|[k' v'] rest IH]; [done|].
  intros Hin Hrej. rewrite validate_items_cons.
  destruct (entry_rejected k' v') eqn:Hk'.
  - unfold entry_rejected in Hk'. simpl.
    destruct (default_config !! k') as [d|]; [|done].
    by rewrite Hk'.
  - destruct Hin as [[= -> ->]|Hin]; [congruence|]. by apply IH.
Qed.

Lemma validate_items_accepted items :
  (forall k v, In (k, v) items -> entry_rejected k v = false) ->
  validate_items items = Ok tt.
Proof.
  induction items as [|[k v] rest IH]; [done|].
  intros H. rewrite validate_items_cons, (H k v) by (by left).
  apply IH. intros k' v' Hin. apply H. by right.
Qed.

Lemma validate_items_Ok_inv items k v :
  validate_items items = Ok tt -> In (k, v) items ->
  entry_rejected k v = false.
Proof.
  intros Hok Hin. destruct (entry_rejected k v) eqn:Hrej; [|done].
  pose proof (validate_items_rejected items k v Hin Hrej) as Hr.
  by rewrite Hok in Hr.
Qed.

End Validation.

(** A failed validation leaves the client as it was; a passed one assigns
    the entries that differ from their default. *)
Lemma _validate_and_set_config_raise (cfg : pyval) (e : pyexc) (self : Perplexity) :
  validate_config cfg = Raise e ->
  _validate_and_set_config cfg self = (Raise e, self).
Proof.
  intros H. unfold _validate_and_set_config, bind, lift. by rewrite H.
Qed.

Lemma _validate_and_set_config_ok (cfg : pyval) (self : Perplexity) :
  validate_config cfg = Ok tt ->
  _validate_and_set_config cfg self =
  set_store (store_items (dict_items cfg) (__config self)) self.
Proof.
  intros H. unfold _validate_and_set_config, bind, lift, get_self.
  by rewrite H.
Qed.

Lemma set_store_same (self : Perplexity) :
  set_store (__config self) self = (Ok tt, self).
Proof. by destruct self. Qed.

Lemma set_config_frame (kwargs : list (string * pyval)) (self : Perplexity) :
  let self' := snd (set_config kwargs self) in
  auth_token self' = auth_token self /\ model self' = model self /\
  system_role self' = system_role self /\
  chat_history self' = chat_history self /\
  session_headers self' = session_headers self.
Proof.
  unfold set_config, _validate_and_set_config, bind, lift, get_self. simpl.
  by destruct (validate_items kwargs).
Qed.

Lemma set_config_raise_unchanged (kwargs : list (string * pyval))
    (e : pyexc) (self : Perplexity) :
  fst (set_config kwargs self) = Raise e -> snd (set_config kwargs self) = self.
Proof.
  unfold set_config, _validate_and_set_config, bind, lift, get_self. simpl.
  by destruct (validate_items kwargs).
Qed.

(** C5 as stated fails: [True] has type [bool], the default of [top_k]
    has type [int] and is not [None], yet [validate_config] accepts the
    mapping and [set_config] returns and stores the value. *)
Lemma validate_config_accepts_other_type :
  default_config !! "top_k" = Some (PInt 0) /\
  is_none (PInt 0) = false /\
  py_type (PBool true) <> py_type (PInt 0) /\
  validate_config (PDict [("top_k", PBool true)]) = Ok tt /\
  fst (set_config [("top_k", PBool true)] sample_client) = Ok tt /\
  __config (snd (set_config [("top_k", PBool true)] sample_client))
    !! "top_k" = Some (PBool true).
Proof. repeat split; (reflexivity || discriminate). Qed.

(** C5, amended: in a mapping given to [validate_config] or [set_config],
    an entry whose key is not a key of the default mapping raises
    [PerplexityConfigError], and so does an entry whose value is not an
    instance of the type of a default other than [None] (a bool is an
    instance of [int]); [set_config] then leaves the client as it was. An
    entry whose default is [None] (the key [max_tokens]) is passed over
    whatever the type of its value. *)
Theorem validate_config_rejects_bad_entries :
  (forall items k v, In (k, v) items -> default_config !! k = None ->
     raised_with is_ConfigError (validate_config (PDict items)) /\
     forall self, raised_with is_ConfigError (fst (set_config items self)) /\
                  snd (set_config items self) = self) /\
  (forall items k v d, In (k, v) items -> default_config !! k = Some d ->
     is_none d = false -> isinstance v (py_type d) = false ->
     raised_with is_ConfigError (validate_config (PDict items)) /\
     forall self, raised_with is_ConfigError (fst (set_config items self)) /\
                  snd (set_config items self) = self) /\
  (forall k v rest, default_config !! k = Some PNone ->
     validate_items ((k, v) :: rest) = validate_items rest /\
     validate_config (PDict [(k, v)]) = Ok tt) /\
  (forall k, default_config !! k = Some PNone <-> k = "max_tokens").
Proof.
  assert (Hset : forall items,
             raised_with is_ConfigError (validate_config (PDict items)) ->
             forall self,
               raised_with is_ConfigError (fst (set_config items self)) /\
               snd (set_config items self) = self).
  { intros items Hr self. simpl in Hr.
    destruct (validate_items items) as [|e] eqn:Hv; [done|].
    unfold set_config.
    rewrite (_validate_and_set_config_raise _ e) by done. done. }
  assert (Hrej : forall items k v, In (k, v) items ->
             entry_rejected k v = true ->
             raised_with is_ConfigError (validate_config (PDict items)))
    by (intros; by eapply validate_items_rejected).
  split; [|split; [|split]].
  - intros items k v Hin Hk.
    assert (raised_with is_ConfigError (validate_config (PDict items))).
    { apply (Hrej items k v Hin). unfold entry_rejected. by rewrite Hk. }
    split; [done | by apply Hset].
  - intros items k v d Hin Hk Hd Hty.
    assert (raised_with is_ConfigError (validate_config (PDict items))).
    { apply (Hrej items k v Hin). unfold entry_rejected.
      by rewrite Hk, Hd, Hty. }
    split; [done | by apply Hset].
  - intros k v rest Hk. split.
    + rewrite validate_items_cons. unfold entry_rejected. by rewrite Hk.
    + simpl. by rewrite Hk.
  - intros k. split.
    + intros H. default_cases H. reflexivity.
    + intros ->. reflexivity.
Qed.

Lemma validate_config_rejects_bad_entries_witness :
  raised_with is_ConfigError
    (validate_config (PDict [("temperature", PFloat float_0_8);
                             ("invalid_key", PStr "value")])) /\
  raised_with is_ConfigError
    (validate_config (PDict [("temperature", PInt 1)])) /\
  validate_config (PDict [("max_tokens", PStr "many")]) = Ok tt.
Proof.
  destruct validate_config_rejects_bad_entries as (Hkey & Hty & Hnone & _).
  split; [|split].
  - apply (Hkey _ "invalid_key" (PStr "value")).
    + right. left. reflexivity.
    + reflexivity.
  - apply (Hty _ "temperature" (PInt 1) (PFloat float_0_2)).
    + left. reflexivity.
    + reflexivity.
    + reflexivity.
    + reflexivity.
  - apply (Hnone "max_tokens" (PStr "many") []). reflexivity.
Defined.

(** C9: [is_config_valid] returns a boolean exactly on dictionaries; on any
    other argument the [TypeError] raised by [validate_config] is not caught
    and leaves [is_config_valid]. *)
Theorem is_config_valid_bool_only_for_dict (v : pyval) :
  (isinstance v TDict = false ->
     exists e, validate_config v = Raise e /\ is_TypeError e = true /\
               is_config_valid v = Raise e) /\
  (isinstance v TDict = true -> exists b, is_config_valid v = Ok b).
Proof.
  split.
  - intros Hv. destruct v; try discriminate Hv; eexists; by repeat split.
  - intros Hv. destruct v; try discriminate Hv.
    unfold is_config_valid. simpl.
    destruct (validate_items items) as [|e] eqn:Hitems; [by eexists|].
    apply validate_items_raises_ConfigError in Hitems.
    destruct e; try discriminate Hitems. by eexists.
Qed.

Lemma is_config_valid_bool_only_for_dict_witness :
  (exists e, validate_config (PList []) = Raise e /\ is_TypeError e = true /\
             is_config_valid (PList []) = Raise e) /\
  (exists b, is_config_valid (PDict [("invalid_key", PStr "value")]) = Ok b).
Proof.
  split.
  - apply (is_config_valid_bool_only_for_dict (PList [])). reflexivity.
  - apply (is_config_valid_bool_only_for_dict
             (PDict [("invalid_key", PStr "value")])). reflexivity.
Defined.

Lemma int_default_keys (k : string) :
  (exists d, default_config !! k = Some d /\ py_type d = TInt) <->
  In k ["top_k"; "presence_penalty"; "frequency_penalty"].
Proof.
  split.
  - intros (d & H & Hty). default_cases H; try discriminate Hty; simpl; tauto.
  - simpl. intros [<-|[<-|[<-|[]]]]; eexists; split; reflexivity.
Qed.

(** C10: for a key whose default is an integer ([top_k],
    [presence_penalty], [frequency_penalty]) a boolean value passes the type
    check of [validate_config], since a bool is an instance of [int]; so
    [is_config_valid({"top_k": True})] is [True]. *)
Theorem validate_config_accepts_bool_for_int (k : string) (d : pyval) (b : bool)
    (rest : list (string * pyval)) :
  default_config !! k = Some d -> py_type d = TInt ->
  validate_items ((k, PBool b) :: rest) = validate_items rest /\
  validate_config (PDict [(k, PBool b)]) = Ok tt /\
  is_config_valid (PDict [(k, PBool b)]) = Ok true.
Proof.
  intros Hk Hty.
  assert (Hrej : entry_rejected k (PBool b) = false).
  { unfold entry_rejected. rewrite Hk. unfold isinstance. rewrite Hty.
    simpl. apply andb_false_r. }
  assert (Hcons : forall l, validate_items ((k, PBool b) :: l) = validate_items l).
  { intros l. by rewrite validate_items_cons, Hrej. }
  assert (Hv : validate_config (PDict [(k, PBool b)]) = Ok tt).
  { unfold validate_config. by rewrite Hcons. }
  split; [apply Hcons|]. split; [exact Hv|].
  unfold is_config_valid. by rewrite Hv.
Qed.

Lemma validate_config_accepts_bool_for_int_witness :
  validate_items [("top_k", PBool true)] = validate_items [] /\
  validate_config (PDict [("top_k", PBool true)]) = Ok tt /\
  is_config_valid (PDict [("top_k", PBool true)]) = Ok true.
Proof.
  apply (validate_config_accepts_bool_for_int "top_k" (PInt 0) true []);
    reflexivity.
Defined.

(** ** The [config] property *)

Lemma config_lookup (self : Perplexity) (k : string) (v : pyval) :
  config self !! k = Some v <->
  (__config self ∪ default_config) !! k = Some v /\ is_none v = false.
Proof. unfold config. by rewrite map_lookup_filter_Some. Qed.

(** C6: no entry of the mapping [config] returns is [None]; [max_tokens] is
    in it exactly when a stored override gives it a value other than
    [None]. *)
Theorem config_never_holds_None (self : Perplexity) :
  (forall k v, config self !! k = Some v -> v <> PNone) /\
  (forall v, config self !! "max_tokens" = Some v <->
             __config self !! "max_tokens" = Some v /\ v <> PNone).
Proof.
  assert (Hnone : forall v, is_none v = false <-> v <> PNone)
    by (intros []; split; (done || congruence)).
  split.
  - intros k v [_ Hv]%config_lookup. by apply Hnone.
  - intros v. rewrite config_lookup, lookup_union_Some_raw, Hnone.
    split.
    + intros [[H | [_ H]] Hv]; [done|].
      change (default_config !! "max_tokens") with (Some PNone) in H.
      congruence.
    + intros [H Hv]. split; [by left | done].
Qed.

Lemma config_never_holds_None_witness :
  PFloat float_0_8 <> PNone /\
  config (snd (set_config [("max_tokens", PInt 100)] sample_client))
    !! "max_tokens" = Some (PInt 100).
Proof.
  destruct (config_never_holds_None client_with_override) as [Hall _].
  destruct (config_never_holds_None
              (snd (set_config [("max_tokens", PInt 100)] sample_client)))
    as [_ Hmax].
  split.
  - apply (Hall "temperature"). reflexivity.
  - apply Hmax. split; [reflexivity | discriminate].
Defined.

(** The default mapping without its [None]-valued entry. *)
Lemma default_config_set_entries :
  filter (fun kv : string * pyval => is_none (snd kv) = false) default_config =
  delete "max_tokens" default_config.
Proof.
  apply map_eq. intros k. apply option_eq. intros v.
  rewrite map_lookup_filter_Some, lookup_delete_Some. simpl. split.
  - intros [Hk Hv]. split; [|done]. intros <-.
    change (default_config !! "max_tokens") with (Some PNone) in Hk.
    by simplify_eq.
  - intros [Hne Hk]. split; [done|].
    default_cases Hk; (done || congruence).
Qed.

Lemma reset_config_spec (self : Perplexity) :
  fst (reset_config self) = Ok tt /\
  __config (snd (reset_config self)) = ∅ /\
  auth_token (snd (reset_config self)) = auth_token self /\
  model (snd (reset_config self)) = model self /\
  system_role (snd (reset_config self)) = system_role self /\
  chat_history (snd (reset_config self)) = chat_history self.
Proof. by repeat split. Qed.

(** C8: after any sequence of [set_config] calls (each may return or
    raise), [reset_config] makes [config] the default mapping without its
    [None]-valued entry, and it changes neither the API key, the model, the
    system role nor the transcript. *)
Theorem reset_config_restores_defaults
    (calls : list (list (string * pyval))) (self : Perplexity) :
  let before := run_all (map set_config calls) self in
  let after := snd (reset_config before) in
  fst (reset_config before) = Ok tt /\
  config after =
    filter (fun kv : string * pyval => is_none (snd kv) = false)
           default_config /\
  config after = delete "max_tokens" default_config /\
  auth_token after = auth_token before /\
  model after = model before /\
  system_role after = system_role before /\
  chat_history after = chat_history before.
Proof.
  intros before after.
  assert (Hcfg : config after =
                 filter (fun kv : string * pyval => is_none (snd kv) = false)
                        default_config).
  { unfold config, after. simpl. by rewrite (left_id_L ∅ (∪)). }
  split; [done|]. split; [exact Hcfg|].
  split; [by rewrite Hcfg, default_config_set_entries|].
  by repeat split.
Qed.

(** ** Setting a key to its default *)

(** C1 as stated fails: with the override [temperature = 0.8] stored,
    [set_config(temperature=0.2)] (the default) returns, the override is
    still stored and [config] still reports 0.8, not the default. *)
Lemma set_config_default_keeps_override :
  let self' := snd (set_config [("temperature", PFloat float_0_2)]
                               client_with_override) in
  __config client_with_override !! "temperature" = Some (PFloat float_0_8) /\
  default_config !! "temperature" = Some (PFloat float_0_2) /\
  fst (set_config [("temperature", PFloat float_0_2)] client_with_override)
    = Ok tt /\
  __config self' !! "temperature" = Some (PFloat float_0_8) /\
  config self' !! "temperature" = Some (PFloat float_0_8) /\
  config self' !! "temperature" <> default_config !! "temperature".
Proof. vm_compute. repeat split; discriminate. Qed.

(** C1, amended: [set_config] with a key set to its default value returns
    without storing anything: the stored overrides, and so the mapping
    [config] reports, are what they were before the call. *)
Theorem set_config_default_is_noop (self : Perplexity) (k : string) (d : pyval) :
  default_config !! k = Some d ->
  set_config [(k, d)] self = (Ok tt, self) /\
  config (snd (set_config [(k, d)] self)) = config self.
Proof.
  intros Hk.
  assert (Hset : set_config [(k, d)] self = (Ok tt, self)).
  { unfold set_config. rewrite _validate_and_set_config_ok.
    - simpl. unfold py_ne.
      rewrite (default_get_lookup k d Hk), (default_self_equal k d Hk).
      simpl. apply set_store_same.
    - simpl. rewrite Hk, default_isinstance_own_type.
      by rewrite andb_false_r. }
  by rewrite Hset.
Qed.

Lemma set_config_default_is_noop_witness :
  set_config [("temperature", PFloat float_0_2)] client_with_override
    = (Ok tt, client_with_override) /\
  config (snd (set_config [("temperature", PFloat float_0_2)]
                          client_with_override))
    = config client_with_override.
Proof.
  apply (set_config_default_is_noop client_with_override "temperature").
  reflexivity.
Defined.

(** ** Construction *)

Lemma str_empty_true (s : string) : str_empty s = true <-> s = "".
Proof. unfold str_empty. apply String.eqb_eq. Qed.

Lemma str_empty_false (s : string) : str_empty s = false <-> s <> "".
Proof. unfold str_empty. apply String.eqb_neq. Qed.

Lemma _validate_required_params_ok (a m s : option string) (self : Perplexity) :
  str_or a (auth_token self) <> "" -> str_or m (model self) <> "" ->
  str_or s (system_role self) <> "" ->
  _validate_required_params a m s self = (Ok tt, self).
Proof.
  intros Ha%str_empty_false Hm%str_empty_false Hs%str_empty_false.
  unfold _validate_required_params, bind, get_self. by rewrite Ha, Hm, Hs.
Qed.

(** C4 as stated fails: a fully non-empty triple given together with a
    mapping that has an unknown key does not construct a client. *)
Lemma init_valid_triple_bad_config :
  "test-api-key" <> "" /\ "test-model" <> "" /\ "test-role" <> "" /\
  raised_with is_ConfigError
    (__init__ "test-api-key" "test-model" "test-role"
              (PDict [("invalid_key", PStr "value")])).
Proof. repeat split; discriminate || reflexivity. Qed.

(** C4, amended: construction with an empty API key raises
    [PerplexityAuthError]; with a non-empty key and an empty model or system
    role it raises [PerplexityConfigError]; with the three non-empty and the
    configuration omitted or accepted by [validate_config] it returns a
    client whose transcript is the single system turn holding the system
    role. *)
Theorem init_outcomes (api_key model_name system_role_name : string)
    (cfg : pyval) :
  (api_key = "" ->
   raised_with is_AuthError (__init__ api_key model_name system_role_name cfg)) /\
  (api_key <> "" -> model_name = "" \/ system_role_name = "" ->
   raised_with is_ConfigError
     (__init__ api_key model_name system_role_name cfg)) /\
  (api_key <> "" -> model_name <> "" -> system_role_name <> "" ->
   cfg = PNone \/ validate_config cfg = Ok tt ->
   exists self,
     __init__ api_key model_name system_role_name cfg = Ok self /\
     chat_history self =
       [ {| role := "system"; content := PStr system_role_name |} ] /\
     length (chat_history self) = 1%nat /\
     auth_token self = api_key /\ model self = model_name /\
     system_role self = system_role_name).
Proof.
  unfold __init__, _validate_required_params, bind, get_self. simpl.
  split; [|split].
  - intros ->. reflexivity.
  - intros Ha%str_empty_false Hms. rewrite Ha.
    destruct (str_empty model_name) eqn:Hm; [reflexivity|].
    destruct Hms as [Hm'%str_empty_true | ->%str_empty_true]; [congruence|].
    reflexivity.
  - intros Ha%str_empty_false Hm%str_empty_false Hs%str_empty_false Hcfg.
    rewrite Ha, Hm, Hs. unfold ret. simpl.
    destruct Hcfg as [-> | Hcfg].
    + simpl. eexists. by repeat split.
    + destruct (is_none cfg) eqn:Hnone; simpl.
      * eexists. by repeat split.
      * unfold _validate_and_set_config, bind, lift, get_self.
        rewrite Hcfg. simpl. eexists. by repeat split.
Qed.

Lemma init_outcomes_witness :
  raised_with is_AuthError (__init__ "" "test-model" "test-role" PNone) /\
  raised_with is_ConfigError (__init__ "test-api-key" "" "test-role" PNone) /\
  exists self,
    __init__ "test-api-key" "test-model" "test-role" PNone = Ok self /\
    chat_history self = [ {| role := "system"; content := PStr "test-role" |} ] /\
    length (chat_history self) = 1%nat /\
    auth_token self = "test-api-key" /\ model self = "test-model" /\
    system_role self = "test-role".
Proof.
  split; [|split].
  - apply (init_outcomes "" "test-model" "test-role" PNone). reflexivity.
  - apply (init_outcomes "test-api-key" "" "test-role" PNone).
    + discriminate.
    + left. reflexivity.
  - apply (init_outcomes "test-api-key" "test-model" "test-role" PNone).
    + discriminate.
    + discriminate.
    + discriminate.
    + left. reflexivity.
Defined.

(** ** Computations that do not touch the client *)

Section ReadOnly.

Context {A B : Type}.

Lemma read_only_ret (a : A) : read_only (ret a).
Proof. by intros self. Qed.

Lemma read_only_raise (e : pyexc) : read_only (@raise A e).
Proof. by intros self. Qed.

Lemma read_only_lift (r : result A) : read_only (lift r).
Proof. by intros self. Qed.

Lemma read_only_bind (c : M A) (k : A -> M B) :
  read_only c -> (forall a, read_only (k a)) -> read_only (bind c k).
Proof.
  intros Hc Hk self. unfold bind. specialize (Hc self).
  destruct (c self) as [[a|e] self']; simpl in *; subst; [apply Hk | done].
Qed.

Lemma read_only_try (c : M A) (h : request_exception -> M A) :
  read_only c -> (forall e, read_only (h e)) ->
  read_only (try_except_RequestException c h).
Proof.
  intros Hc Hh self. unfold try_except_RequestException.
  specialize (Hc self).
  destruct (c self) as [[a|e] self']; simpl in *; subst; [done|].
  destruct e; try done. apply Hh.
Qed.

End ReadOnly.

Lemma read_only_get_self : read_only get_self.
Proof. by intros self. Qed.

Lemma read_only_raise_error_message {A} (e : request_exception) :
  read_only (@_raise_error_message A e).
Proof.
  intros self. unfold _raise_error_message.
  destruct (exc_response e) as [r|]; [|done].
  destruct (status_code r =? 400); [done|].
  by destruct (status_code r =? 401).
Qed.

Lemma read_only_validate_required_params (a m s : option string) :
  read_only (_validate_required_params a m s).
Proof.
  intros self. unfold _validate_required_params, bind, get_self.
  destruct (str_empty _); [done|].
  destruct (str_empty _); [done|].
  by destruct (str_empty _).
Qed.

Lemma read_only_request (net : payload -> http_outcome) (p : payload) :
  read_only (request net p).
Proof. intros self. unfold request. by destruct (net p). Qed.

Lemma read_only_ask_prepare (message : string)
    (model_arg system_role_arg : option string) (response_type : pyval)
    (config_kwargs : list (string * pyval)) :
  read_only (ask_prepare message model_arg system_role_arg response_type
               config_kwargs).
Proof.
  unfold ask_prepare, _get_validated_config.
  repeat first
    [ progress cbv beta zeta
    | apply read_only_validate_required_params
    | apply read_only_get_self
    | apply read_only_lift
    | apply read_only_ret
    | apply read_only_bind; [|intros ?] ].
Qed.

Lemma read_only_ask_send (net : payload -> http_outcome) (message : string)
    (response_type : pyval) (p : payload) :
  read_only (ask_send net message false response_type p).
Proof.
  unfold ask_send. apply read_only_try; [|apply read_only_raise_error_message].
  apply read_only_bind; [apply read_only_request|]. intros r.
  destruct (ok r); simpl;
    repeat first
      [ apply read_only_bind; [|intros ?]
      | apply read_only_lift
      | apply read_only_ret ].
Qed.

(** C7: [ask(message, append_history=False)] leaves the transcript (indeed
    the whole client) as it was, whether it returns or raises; in
    particular the length of the transcript is the same. *)
Theorem ask_without_append_keeps_transcript
    (net : payload -> http_outcome) (message : string)
    (model_arg system_role_arg : option string) (response_type : pyval)
    (config_kwargs : list (string * pyval)) (self : Perplexity) :
  let out := ask net message model_arg system_role_arg false response_type
                 config_kwargs self in
  length (chat_history (snd out)) = length (chat_history self) /\
  chat_history (snd out) = chat_history self /\
  snd out = self.
Proof.
  intros out.
  assert (Hro : snd out = self).
  { unfold out, ask. simpl. apply read_only_bind.
    - apply read_only_ask_prepare.
    - intros p. apply read_only_ask_send. }
  rewrite Hro. eauto.
Qed.

(** ** Failed requests *)

Lemma raise_error_message_classified {A} (e : request_exception)
    (self : Perplexity) :
  remote_failure_classified (exc_response e)
    (fst (@_raise_error_message A e self)).
Proof.
  unfold _raise_error_message, remote_failure_classified.
  destruct (exc_response e) as [r|]; [|reflexivity].
  destruct (status_code r =? 400) eqn:H400;
    [|destruct (status_code r =? 401) eqn:H401]; simpl.
  - apply Z.eqb_eq in H400. repeat split; intros; (done || lia).
  - apply Z.eqb_eq in H401. repeat split; intros; (done || lia).
  - apply Z.eqb_neq in H400, H401. repeat split; intros; done.
Qed.

Lemma not_ok_raise_for_status (r : response) :
  ok r = false ->
  raise_for_status r =
  Raise (RequestException {| exc_str := "HTTPError"; exc_response := Some r |}).
Proof.
  unfold ok, raise_for_status. by destruct (is_error_status r).
Qed.

(** A failed request hands an exception carrying the failure to
    [_raise_error_message], in [ask] and in [chat]. *)
Lemma ask_send_failure (net : payload -> http_outcome) (message : string)
    (append_history : bool) (response_type : pyval) (p : payload)
    (failure : option response) (self : Perplexity) :
  failure_of (net p) = Some failure ->
  exists e, exc_response e = failure /\
            ask_send net message append_history response_type p self =
            _raise_error_message e self.
Proof.
  unfold failure_of, ask_send, try_except_RequestException, bind, request.
  destruct (net p) as [r|e]; simpl.
  - destruct (ok r) eqn:Hok; [done|]. intros [= <-].
    unfold lift. rewrite (not_ok_raise_for_status r Hok). 
    by exists {| exc_str := "HTTPError"; exc_response := Some r |}.
  - intros [= <-]. by exists e.
Qed.

Lemma chat_send_failure (net : payload -> http_outcome)
    (response_type : pyval) (p : payload)
    (failure : option response) (self : Perplexity) :
  failure_of (net p) = Some failure ->
  exists e, exc_response e = failure /\
            chat_send net response_type p self = _raise_error_message e self.
Proof.
  unfold failure_of, chat_send, try_except_RequestException, bind, request.
  destruct (net p) as [r|e]; simpl.
  - destruct (ok r) eqn:Hok; [done|]. intros [= <-].
    unfold lift. rewrite (not_ok_raise_for_status r Hok). 
    by exists {| exc_str := "HTTPError"; exc_response := Some r |}.
  - intros [= <-]. by exists e.
Qed.

(** C2: when a call of [ask] or [chat] gets as far as its request and the
    request fails, a response with status 400 raises
    [PerplexityConfigError], one with status 401 raises
    [PerplexityAuthError], one with any other status raises
    [PerplexityAPIError] with that status as [status_code], and a failure
    without a response (a timeout, a connection error) raises
    [PerplexityAPIError] with [status_code] [None]. *)
Theorem failed_request_classification
    (net : payload -> http_outcome) (self self1 : Perplexity) (p : payload)
    (failure : option response) :
  failure_of (net p) = Some failure ->
  (forall message model_arg system_role_arg append_history response_type
          config_kwargs,
     ask_prepare message model_arg system_role_arg response_type
       config_kwargs self = (Ok p, self1) ->
     remote_failure_classified failure
       (fst (ask net message model_arg system_role_arg append_history
               response_type config_kwargs self))) /\
  (forall message response_type,
     chat_prepare message response_type self = (Ok p, self1) ->
     remote_failure_classified failure
       (fst (chat net message response_type self))).
Proof.
  intros Hfail. split.
  - intros message model_arg system_role_arg append_history response_type
           config_kwargs Hprep.
    unfold ask, bind. cbv zeta. rewrite Hprep.
    destruct (ask_send_failure net message (append_history || false)
                response_type p failure self1 Hfail) as (e & <- & ->).
    apply raise_error_message_classified.
  - intros message response_type Hprep.
    unfold chat, bind. rewrite Hprep.
    destruct (chat_send_failure net response_type p failure self1 Hfail)
      as (e & <- & ->).
    apply raise_error_message_classified.
Qed.

Lemma failed_request_classification_witness :
  raised_APIError (Some 429)
    (fst (ask (fun _ => Returned (response_with_status 429)) "test" None None
              false (PStr "llm_response") [] sample_client)) /\
  raised_APIError None
    (fst (chat (fun _ => Failed timeout_error) "test" (PStr "llm_response")
               sample_client)).
Proof.
  split.
  - destruct (failed_request_classification
                (fun _ => Returned (response_with_status 429))
                sample_client sample_client
                {| p_model := "test-model";
                   p_messages :=
                     [ {| role := "system"; content := PStr "test-role" |};
                       {| role := "user"; content := PStr "test" |} ];
                   p_config := ∅ |}
                (Some (response_with_status 429)) eq_refl) as [Hask _].
    apply (Hask "test" None None false (PStr "llm_response") [] eq_refl);
      discriminate.
  - destruct (failed_request_classification
                (fun _ => Failed timeout_error)
                sample_client
                (snd (append_history_turn
                        {| role := "user"; content := PStr "test" |}
                        sample_client))
                {| p_model := "test-model";
                   p_messages :=
                     [ {| role := "system"; content := PStr "test-role" |};
                       {| role := "user"; content := PStr "test" |} ];
                   p_config := ∅ |}
                None eq_refl) as [_ Hchat].
    apply (Hchat "test" (PStr "llm_response") eq_refl).
Defined.

(** ** The transcript across [chat] *)

Lemma raise_error_message_raises {A} (e : request_exception)
    (self : Perplexity) :
  exists x, @_raise_error_message A e self = (Raise x, self).
Proof.
  unfold _raise_error_message.
  destruct (exc_response e) as [r|]; [|by eexists].
  destruct (status_code r =? 400); [by eexists|].
  destruct (status_code r =? 401); by eexists.
Qed.

Lemma validate_response_type_string (rt : pyval) :
  In rt response_type_strings -> validate_response_type rt = Ok tt.
Proof.
  simpl. intros [<-|[<-|[<-|[<-|[]]]]]; reflexivity.
Qed.

Lemma formatted_getitem_string (f : formatted) (rt : pyval) :
  In rt response_type_strings -> exists w, formatted_getitem f rt = Ok w.
Proof.
  simpl. intros [<-|[<-|[<-|[<-|[]]]]]; by eexists.
Qed.

Lemma format_response_first_choice (r : response) (j c : pyval) :
  json_body r = Some j -> first_choice_content j = Ok c ->
  _format_response r =
  Ok {| f_raw := r; f_text := text r; f_json := j; f_llm_response := c |}.
Proof. unfold _format_response. by intros -> ->. Qed.

Lemma chat_prepare_ok (message : string) (rt : pyval) (self : Perplexity) :
  In rt response_type_strings ->
  auth_token self <> "" -> model self <> "" -> system_role self <> "" ->
  chat_prepare message rt self =
  (Ok {| p_model := model self;
         p_messages :=
           (chat_history self ++ [ {| role := "user"; content := PStr message |} ])%list;
         p_config := __config self |},
   snd (append_history_turn {| role := "user"; content := PStr message |} self)).
Proof.
  intros Hrt Ha Hm Hs. unfold chat_prepare, bind, lift.
  rewrite (validate_response_type_string rt Hrt).
  by rewrite (_validate_required_params_ok None None None self).
Qed.

(** When the [try] block of [chat] raises, the client is as it was when
    the block was entered. *)
Lemma chat_send_raise_keeps_state (net : payload -> http_outcome)
    (rt : pyval) (p : payload) (self : Perplexity) (e : pyexc) :
  In rt response_type_strings ->
  fst (chat_send net rt p self) = Raise e ->
  snd (chat_send net rt p self) = self.
Proof.
  intros Hrt. unfold chat_send, try_except_RequestException, bind, request.
  destruct (net p) as [r|e']; cbn [ret raise].
  - destruct (ok r) eqn:Hok.
    + unfold lift. destruct (_format_response r) as [f|e''].
      * destruct (formatted_getitem_string f rt Hrt) as [w ->].
        by destruct (py_truthy (f_llm_response f)).
      * destruct e'' as [| | | |e0| | |]; try done.
        by destruct (raise_error_message_raises (A:=view) e0 self) as [x ->].
    + unfold lift. rewrite (not_ok_raise_for_status r Hok).
      by destruct (raise_error_message_raises (A:=view)
                     {| exc_str := "HTTPError"; exc_response := Some r |}
                     self) as [x ->].
  - by destruct (raise_error_message_raises (A:=view) e' self) as [x ->].
Qed.

(** C3 as stated fails: a call of [chat] with a response type that is not
    one of the four raises before the user turn is appended, so this failed
    call leaves the transcript at its old length. *)
Lemma chat_invalid_response_type_no_append :
  let out := chat (fun _ => Returned response_X) "hi" (PStr "bogus")
                  sample_client in
  (exists msg, fst out = Raise (ValueError msg)) /\
  chat_history (snd out) = chat_history sample_client /\
  length (chat_history (snd out)) <> S (length (chat_history sample_client)).
Proof.
  split; [by eexists|]. split; [reflexivity|]. discriminate.
Qed.

(** C3, amended: a call of [chat] whose response type is one of the four
    strings, on a client whose API key, model and system role are non-empty,
    appends the user turn before sending (the payload holds it) and does not
    take it back: when the call raises, the transcript is the old one
    followed by the user turn (length + 1); when the response is a success
    whose first choice's message content is non-empty, the transcript is the
    old one followed by the user turn and an assistant turn holding that
    content (length + 2), and that content is what the call returns under
    the response type ["llm_response"]. *)
Theorem chat_transcript (net : payload -> http_outcome) (message : string)
    (rt : pyval) (self : Perplexity) :
  In rt response_type_strings ->
  auth_token self <> "" -> model self <> "" -> system_role self <> "" ->
  let user := {| role := "user"; content := PStr message |} in
  let p := {| p_model := model self;
              p_messages := (chat_history self ++ [user])%list;
              p_config := __config self |} in
  let out := chat net message rt self in
  fst (chat_prepare message rt self) = Ok p /\
  (forall e, fst out = Raise e ->
     chat_history (snd out) = (chat_history self ++ [user])%list /\
     length (chat_history (snd out)) = S (length (chat_history self))) /\
  (forall r j c,
     net p = Returned r -> ok r = true ->
     json_body r = Some j -> first_choice_content j = Ok c ->
     py_truthy c = true ->
     chat_history (snd out) =
       (chat_history self ++
        [user; {| role := "assistant"; content := c |}])%list /\
     length (chat_history (snd out)) = S (S (length (chat_history self))) /\
     (rt = PStr "llm_response" -> fst out = Ok (VValue c))).
Proof.
  intros Hrt Ha Hm Hs user p out.
  pose proof (chat_prepare_ok message rt self Hrt Ha Hm Hs) as Hprep.
  fold user in Hprep. fold p in Hprep.
  assert (Hlen1 : length (chat_history self ++ [user]) =
                  S (length (chat_history self)))
    by (rewrite length_app; simpl; lia).
  assert (Hout : out = chat_send net rt p (snd (append_history_turn user self)))
    by (unfold out, chat, bind; by rewrite Hprep).
  split; [by rewrite Hprep|]. split.
  - intros e He. rewrite Hout in He |- *.
    rewrite (chat_send_raise_keeps_state net rt p _ e Hrt He). done.
  - intros r j c Hnet Hok Hj Hc Htruthy. rewrite Hout.
    unfold chat_send, try_except_RequestException, bind, request, lift.
    rewrite Hnet. simpl. rewrite Hok.
    rewrite (format_response_first_choice r j c Hj Hc). simpl.
    rewrite Htruthy. simpl.
    destruct (formatted_getitem_string
                {| f_raw := r; f_text := text r; f_json := j;
                   f_llm_response := c |} rt Hrt) as [w Hw].
    rewrite Hw. simpl. split; [|split].
    + by rewrite <- app_assoc.
    + rewrite !length_app. simpl. lia.
    + intros ->. simpl in Hw. by injection Hw as <-.
Qed.

Lemma chat_transcript_witness :
  let out := chat (fun _ => Returned response_X) "hi" (PStr "llm_response")
                  sample_client in
  let failed := chat (fun _ => Returned (response_with_status 500)) "hi"
                     (PStr "llm_response") sample_client in
  (chat_history (snd out) =
     [ {| role := "system"; content := PStr "test-role" |};
       {| role := "user"; content := PStr "hi" |};
       {| role := "assistant"; content := PStr "X" |} ] /\
   fst out = Ok (VValue (PStr "X"))) /\
  chat_history (snd failed) =
    [ {| role := "system"; content := PStr "test-role" |};
      {| role := "user"; content := PStr "hi" |} ].
Proof.
  assert (Hrt : In (PStr "llm_response") response_type_strings)
    by (right; right; right; left; reflexivity).
  assert (Ha : auth_token sample_client <> "") by discriminate.
  assert (Hm : model sample_client <> "") by discriminate.
  assert (Hs : system_role sample_client <> "") by discriminate.
  split.
  - destruct (chat_transcript (fun _ => Returned response_X) "hi"
                (PStr "llm_response") sample_client Hrt Ha Hm Hs)
      as (_ & _ & Hsucc).
    destruct (Hsucc response_X
                (PDict [("choices",
                         PList [PDict [("message",
                                        PDict [("content", PStr "X")])]])])
                (PStr "X") eq_refl eq_refl eq_refl eq_refl eq_refl)
      as (Hhist & _ & Hret).
    split; [exact Hhist | exact (Hret eq_refl)].
  - destruct (chat_transcript (fun _ => Returned (response_with_status 500))
                "hi" (PStr "llm_response") sample_client Hrt Ha Hm Hs)
      as (_ & Hfail & _).
    refine (proj1 (Hfail _ _)). reflexivity.
Defined.

(** A member of [ResponseFormatType] passes [validate_response_type], but
    the views are keyed by strings: on a successful response the lookup
    raises [KeyError] after the assistant turn was appended. This is why
    [chat_transcript] speaks of the four strings. *)
Lemma chat_enum_member_KeyError :
  let out := chat (fun _ => Returned response_X) "hi" (PEnum LLM_RESPONSE)
                  sample_client in
  validate_response_type (PEnum LLM_RESPONSE) = Ok tt /\
  fst out = Raise (KeyError (PEnum LLM_RESPONSE)) /\
  length (chat_history (snd out)) = 3%nat.
Proof. by repeat split. Qed.

(** * Further properties of the client *)

(** ** Response types *)

Lemma validate_response_type_cases_aux (rt : pyval) :
  match rt with
  | PStr s =>
      if existsb (String.eqb s) ["raw"; "text"; "json"; "llm_response"]
      then validate_response_type rt = Ok tt
      else exists msg, validate_response_type rt = Raise (ValueError msg)
  | PEnum _ => validate_response_type rt = Ok tt
  | _ => raised_with is_TypeError (validate_response_type rt)
  end.
Proof.
  destruct rt; try reflexivity.
  cbv [validate_response_type isinstance py_type issubclass pytype_eqb negb
       orb member_of_value members List.find py_eq member_value existsb].
  rewrite !(String.eqb_sym s).
  destruct (String.eqb "raw" s); [reflexivity|].
  destruct (String.eqb "text" s); [reflexivity|].
  destruct (String.eqb "json" s); [reflexivity|].
  destruct (String.eqb "llm_response" s); [reflexivity|].
  by eexists.
Qed.

(** X1: [validate_response_type] returns exactly on the four strings and on
    the members of the enum; any other string raises [ValueError] and a
    value that is neither a string nor a member raises [TypeError]. *)
Theorem validate_response_type_cases (rt : pyval) :
  match rt with
  | PStr s =>
      if existsb (String.eqb s) ["raw"; "text"; "json"; "llm_response"]
      then validate_response_type rt = Ok tt
      else exists msg, validate_response_type rt = Raise (ValueError msg)
  | PEnum _ => validate_response_type rt = Ok tt
  | _ => raised_with is_TypeError (validate_response_type rt)
  end.
Proof. apply validate_response_type_cases_aux. Qed.

(** ** Which mappings [validate_config] accepts *)

Lemma first_rejected_cons (k : string) (v : pyval)
    (rest : list (string * pyval)) :
  first_rejected ((k, v) :: rest) =
  if entry_rejected k v then Some (k, v) else first_rejected rest.
Proof. reflexivity. Qed.

(** X2: [validate_config] raises at the first entry it rejects, and the
    error names that entry's key: as an invalid key when the key is not in
    the default mapping, as an invalid value otherwise; a mapping without
    such an entry is accepted. *)
Theorem validate_config_first_rejected (items : list (string * pyval)) :
  validate_config (PDict items) =
  match first_rejected items with
  | None => Ok tt
  | Some (k, _) =>
      Raise (PerplexityConfigError
               ([Lit (match default_config !! k with
                      | None => "Invalid configuration key: "
                      | Some _ => "Invalid configuration value for key: "
                      end);
                 Fmt (PStr k)], None))
  end.
Proof.
  unfold validate_config.
  induction items as [|[k v] rest IH]; [reflexivity|].
  rewrite first_rejected_cons, validate_items_cons.
  destruct (entry_rejected k v) eqn:Hrej; [|exact IH].
  unfold entry_rejected in Hrej. simpl.
  destruct (default_config !! k) as [d|]; [|reflexivity].
  by rewrite Hrej.
Qed.

(** X3: on a dictionary [is_config_valid] is [True] exactly when no entry
    is rejected, that is when every key is a key of the default mapping and
    every value is an instance of the type of its default or the default is
    [None]. *)
Theorem is_config_valid_iff (items : list (string * pyval)) :
  is_config_valid (PDict items) =
  Ok (forallb (fun kv => negb (entry_rejected (fst kv) (snd kv))) items).
Proof.
  unfold is_config_valid, validate_config.
  induction items as [|[k v] rest IH]; [reflexivity|].
  rewrite validate_items_cons. cbn [forallb fst snd].
  destruct (entry_rejected k v) eqn:Hrej; [|exact IH].
  unfold entry_rejected in Hrej. simpl.
  destruct (default_config !! k) as [d|]; [|reflexivity].
  by rewrite Hrej.
Qed.

(** X4: an integer is rejected for every key whose default is a float or a
    bool ([temperature], [top_p], [return_images], [stream], ...), in
    [validate_config] and in [set_config], which then stores nothing. *)
Theorem int_rejected_for_float_and_bool (k : string) (d : pyval) (z : Z)
    (items : list (string * pyval)) :
  default_config !! k = Some d ->
  py_type d = TFloat \/ py_type d = TBool ->
  In (k, PInt z) items ->
  raised_with is_ConfigError (validate_config (PDict items)) /\
  forall self, raised_with is_ConfigError (fst (set_config items self)) /\
               snd (set_config items self) = self.
Proof.
  intros Hk Hty Hin.
  assert (Hrej : entry_rejected k (PInt z) = true).
  { unfold entry_rejected, isinstance. rewrite Hk.
    destruct d; simpl in Hty; destruct Hty as [Hty|Hty];
      try discriminate Hty; reflexivity. }
  pose proof (validate_items_rejected items k (PInt z) Hin Hrej) as Hr.
  split; [exact Hr|]. intros self. unfold set_config.
  destruct (validate_items items) as [|e] eqn:Hv; [done|].
  by rewrite (_validate_and_set_config_raise (PDict items) e self Hv).
Qed.

Lemma int_rejected_for_float_and_bool_witness :
  raised_with is_ConfigError
    (validate_config (PDict [("temperature", PInt 1)])) /\
  forall self,
    raised_with is_ConfigError
      (fst (set_config [("temperature", PInt 1)] self)) /\
    snd (set_config [("temperature", PInt 1)] self) = self.
Proof.
  apply (int_rejected_for_float_and_bool "temperature" (PFloat float_0_2) 1).
  - reflexivity.
  - left. reflexivity.
  - left. reflexivity.
Defined.

(** ** What [set_config] stores *)

Lemma store_items_cons (k : string) (v : pyval)
    (rest : list (string * pyval)) (store : gmap string pyval) :
  store_items ((k, v) :: rest) store =
  store_items rest (if py_ne v (default_get k) then <[k := v]> store
                    else store).
Proof. reflexivity. Qed.

Lemma store_items_app (a b : list (string * pyval))
    (store : gmap string pyval) :
  store_items (a ++ b) store = store_items b (store_items a store).
Proof. unfold store_items. apply foldl_app. Qed.

Lemma store_items_lookup (items : list (string * pyval))
    (store : gmap string pyval) (k : string) :
  store_items items store !! k =
  match last_override k items with
  | Some v => Some v
  | None => store !! k
  end.
Proof.
  revert store. induction items as [|[k' v] rest IH]; intros store;
    [reflexivity|].
  rewrite store_items_cons, IH. simpl.
  destruct (last_override k rest) as [w|]; [reflexivity|].
  destruct (py_ne v (default_get k')); simpl.
  - destruct (String.eqb_spec k' k) as [->|Hne].
    + by rewrite lookup_insert_eq.
    + by rewrite lookup_insert_ne.
  - by rewrite andb_false_r.
Qed.

Lemma last_override_In (k : string) (v : pyval)
    (items : list (string * pyval)) :
  last_override k items = Some v ->
  In (k, v) items /\ py_ne v (default_get k) = true.
Proof.
  induction items as [|[k' v'] rest IH]; [done|]. simpl.
  destruct (last_override k rest) as [w|].
  - intros [= ->]. destruct (IH eq_refl) as [Hin Hne]. by split; [right|].
  - destruct (String.eqb_spec k' k) as [->|]; [|done].
    destruct (py_ne v' (default_get k)) eqn:Hne; [|done].
    intros [= ->]. by split; [left|].
Qed.

Lemma validate_items_app (a b : list (string * pyval)) :
  validate_items a = Ok tt -> validate_items b = Ok tt ->
  validate_items (a ++ b) = Ok tt.
Proof.
  intros Ha Hb. apply validate_items_accepted. intros k v Hin.
  apply in_app_or in Hin as [Hin|Hin];
    eauto using validate_items_Ok_inv.
Qed.

Lemma set_config_ok (kwargs : list (string * pyval)) (self : Perplexity) :
  validate_items kwargs = Ok tt ->
  set_config kwargs self =
  set_store (store_items kwargs (__config self)) self.
Proof.
  intros H. unfold set_config. by rewrite _validate_and_set_config_ok.
Qed.

(** X5: two accepted [set_config] calls that have no keyword in common
    leave the client that one call with the entries of the first followed
    by those of the second leaves. *)
Theorem set_config_twice (a b : list (string * pyval)) (self : Perplexity) :
  NoDup (map fst (a ++ b)) ->
  validate_items a = Ok tt -> validate_items b = Ok tt ->
  snd (set_config b (snd (set_config a self))) =
  snd (set_config (a ++ b) self).
Proof.
  intros _ Ha Hb.
  rewrite (set_config_ok a self Ha).
  rewrite (set_config_ok b _ Hb).
  rewrite (set_config_ok (a ++ b) self (validate_items_app a b Ha Hb)).
  simpl. by rewrite store_items_app.
Qed.

Lemma set_config_twice_witness :
  snd (set_config [("top_k", PInt 5)]
         (snd (set_config [("temperature", PFloat float_0_8)] sample_client)))
  = snd (set_config [("temperature", PFloat float_0_8); ("top_k", PInt 5)]
           sample_client).
Proof.
  apply (set_config_twice [("temperature", PFloat float_0_8)]
           [("top_k", PInt 5)] sample_client).
  - apply (bool_decide_unpack _). vm_compute. reflexivity.
  - reflexivity.
  - reflexivity.
Defined.

(** X6: repeating a [set_config] call changes nothing more: the second
    call leaves the client the first one left. *)
Theorem set_config_idempotent (kwargs : list (string * pyval))
    (self : Perplexity) :
  snd (set_config kwargs (snd (set_config kwargs self))) =
  snd (set_config kwargs self).
Proof.
  destruct (validate_items kwargs) as [[]|e] eqn:Hv.
  - rewrite (set_config_ok kwargs self Hv).
    rewrite (set_config_ok kwargs _ Hv). simpl. f_equal.
    apply map_eq. intros k. rewrite !store_items_lookup.
    by destruct (last_override k kwargs).
  - unfold set_config.
    by rewrite !(_validate_and_set_config_raise (PDict kwargs) e).
Qed.

(** X7: after an accepted [set_config], the mapping [config] returns holds
    for each key the value of the last entry given for it that differs from
    the default (unless that value is [None]); a key without such an entry
    reads as before the call. *)
Theorem set_config_then_config (kwargs : list (string * pyval))
    (self : Perplexity) (k : string) :
  validate_items kwargs = Ok tt ->
  config (snd (set_config kwargs self)) !! k =
  match last_override k kwargs with
  | Some v => if is_none v then None else Some v
  | None => config self !! k
  end.
Proof.
  intros Hv. rewrite (set_config_ok kwargs self Hv). unfold config. simpl.
  rewrite !map_lookup_filter, !lookup_union, store_items_lookup.
  destruct (last_override k kwargs) as [v|] eqn:Hlast; [|reflexivity].
  rewrite union_Some_l. simpl.
  destruct (is_none v) eqn:Hnone; case_guard; simpl in *; congruence.
Qed.

Lemma set_config_then_config_witness :
  config (snd (set_config [("temperature", PFloat float_0_8)] sample_client))
    !! "temperature" = Some (PFloat float_0_8).
Proof.
  apply (set_config_then_config [("temperature", PFloat float_0_8)]
           sample_client "temperature"). reflexivity.
Defined.

(** ** The views of a response *)

Lemma py_getitem_raises (v : pyval) (s : subscript) (e : pyexc) :
  py_getitem v s = Raise e ->
  is_TypeError e = true \/ e = IndexError \/ exists k, e = KeyError k.
Proof.
  unfold py_getitem.
  destruct v, s; try (intros [= <-]; by left).
  - destruct (seq_position i (String.length s0)); [done|].
    intros [= <-]. right. by left.
  - destruct (seq_position i (length l)) as [n|].
    + destruct (nth_error l n); [done|]. intros [= <-]. right. by left.
    + intros [= <-]. right. by left.
  - destruct (assoc k items); [done|]. intros [= <-]. right. right. by eexists.
  - intros [= <-]. right. right. by eexists.
Qed.

Lemma first_choice_content_raises (j : pyval) (e : pyexc) :
  first_choice_content j = Raise e ->
  is_TypeError e = true \/ e = IndexError \/ exists k, e = KeyError k.
Proof.
  unfold first_choice_content.
  destruct (py_getitem j (Key "choices")) as [a|] eqn:H1;
    [|intros [= <-]; eauto using py_getitem_raises].
  destruct (py_getitem a (Index 0)) as [b|] eqn:H2;
    [|intros [= <-]; eauto using py_getitem_raises].
  destruct (py_getitem b (Key "message")) as [c|] eqn:H3;
    [|intros [= <-]; eauto using py_getitem_raises].
  apply py_getitem_raises.
Qed.

(** X8: [_format_response] always gives the response itself and its text as
    the [raw] and [text] views; the [json] and [llm_response] views are
    either both [None] or the parsed body and its first choice's message
    content, so a body that parses but lacks a key of that path has a
    [None] [json] view too. Its [except] clause catches [ValueError] and
    [KeyError] only: the one exceptions that leave it are [TypeError] and
    [IndexError]. *)
Theorem format_response_views (r : response) :
  match _format_response r with
  | Ok f =>
      f_raw f = r /\ f_text f = text r /\
      ((f_json f = PNone /\ f_llm_response f = PNone) \/
       (json_body r = Some (f_json f) /\
        first_choice_content (f_json f) = Ok (f_llm_response f)))
  | Raise e => is_TypeError e = true \/ e = IndexError
  end.
Proof.
  unfold _format_response.
  destruct (json_body r) as [j|]; [|simpl; by eauto].
  destruct (first_choice_content j) as [c|e] eqn:Hc; [simpl; by eauto|].
  destruct (first_choice_content_raises j e Hc) as [Hty|[->|[k ->]]].
  - destruct e; try discriminate Hty. by left.
  - by right.
  - simpl. by eauto.
Qed.



(** ** What [ask] and [chat] do to the client *)

Lemma formatted_getitem_raises (f : formatted) (rt : pyval) (e : pyexc) :
  formatted_getitem f rt = Raise e -> e = KeyError rt.
Proof.
  unfold formatted_getitem. destruct rt; try (by intros [= <-]).
  destruct (String.eqb s "raw"); [done|].
  destruct (String.eqb s "text"); [done|].
  destruct (String.eqb s "json"); [done|].
  destruct (String.eqb s "llm_response"); [done|]. by intros [= <-].
Qed.

(** Case analysis on a lookup among the views: it returns or raises
    [KeyError]. *)
Ltac getitem_cases f rt :=
  let Hg := fresh "Hg" in
  destruct (formatted_getitem f rt) as [?|?] eqn:Hg;
  [|apply formatted_getitem_raises in Hg as ->].

Lemma append_history_turn_eq (t : turn) (self : Perplexity) :
  append_history_turn t self =
  (Ok tt, with_history self (chat_history self ++ [t])).
Proof. reflexivity. Qed.

Lemma ask_prepare_state (message : string)
    (model_arg system_role_arg : option string) (rt : pyval)
    (kwargs : list (string * pyval)) (self : Perplexity) :
  snd (ask_prepare message model_arg system_role_arg rt kwargs self) = self.
Proof. apply read_only_ask_prepare. Qed.

(** The [try] block of [ask] leaves the client as it was or, when asked to
    append, with the user turn and a non-empty assistant turn appended. *)
Lemma ask_send_effect (net : payload -> http_outcome) (message : string)
    (append_history : bool) (rt : pyval) (p : payload) (self : Perplexity) :
  snd (ask_send net message append_history rt p self) = self \/
  (append_history = true /\
   exists c, py_truthy c = true /\
     snd (ask_send net message append_history rt p self) =
     with_history self
       (chat_history self ++ [user_turn message; assistant_turn c])).
Proof.
  unfold ask_send, try_except_RequestException, bind, request.
  destruct (net p) as [r|e']; cbn [ret raise].
  - destruct (ok r) eqn:Hok.
    + unfold lift. destruct (_format_response r) as [f|e''].
      * destruct append_history; simpl.
        -- destruct (py_truthy (f_llm_response f)) eqn:Htr; simpl.
           ++ right. split; [done|]. exists (f_llm_response f).
              split; [done|].
              unfold with_history. simpl. rewrite <- app_assoc. simpl.
              by getitem_cases f rt.
           ++ left. by getitem_cases f rt.
        -- left. by getitem_cases f rt.
      * left. destruct e'' as [| | | |e0| | |]; try done.
        by destruct (raise_error_message_raises (A:=view) e0 self) as [x ->].
    + left. unfold lift. rewrite (not_ok_raise_for_status r Hok).
      by destruct (raise_error_message_raises (A:=view)
                     {| exc_str := "HTTPError"; exc_response := Some r |}
                     self) as [x ->].
  - left.
    by destruct (raise_error_message_raises (A:=view) e' self) as [x ->].
Qed.

(** The [try] block of [chat] leaves the client as it was or with a
    non-empty assistant turn appended. *)
Lemma chat_send_effect (net : payload -> http_outcome) (rt : pyval)
    (p : payload) (self : Perplexity) :
  snd (chat_send net rt p self) = self \/
  exists c, py_truthy c = true /\
    snd (chat_send net rt p self) =
    with_history self (chat_history self ++ [assistant_turn c]).
Proof.
  unfold chat_send, try_except_RequestException, bind, request.
  destruct (net p) as [r|e']; cbn [ret raise].
  - destruct (ok r) eqn:Hok.
    + unfold lift. destruct (_format_response r) as [f|e''].
      * destruct (py_truthy (f_llm_response f)) eqn:Htr; simpl.
        -- right. exists (f_llm_response f). split; [done|].
           by getitem_cases f rt.
        -- left. by getitem_cases f rt.
      * left. destruct e'' as [| | | |e0| | |]; try done.
        by destruct (raise_error_message_raises (A:=view) e0 self) as [x ->].
    + left. unfold lift. rewrite (not_ok_raise_for_status r Hok).
      by destruct (raise_error_message_raises (A:=view)
                     {| exc_str := "HTTPError"; exc_response := Some r |}
                     self) as [x ->].
  - left.
    by destruct (raise_error_message_raises (A:=view) e' self) as [x ->].
Qed.

Lemma chat_prepare_effect (message : string) (rt : pyval)
    (self : Perplexity) :
  (exists e, chat_prepare message rt self = (Raise e, self)) \/
  (exists p, chat_prepare message rt self =
             (Ok p, with_history self
                      (chat_history self ++ [user_turn message]))).
Proof.
  unfold chat_prepare, bind, lift.
  destruct (validate_response_type rt) as [[]|e]; [|left; by eexists].
  pose proof (read_only_validate_required_params None None None self) as Hro.
  destruct (_validate_required_params None None None self) as [[[]|e] s'];
    simpl in Hro; subst s'.
  - right. by eexists.
  - left. by eexists.
Qed.

Lemma ask_effect (net : payload -> http_outcome) (message : string)
    (model_arg system_role_arg : option string) (append_history : bool)
    (rt : pyval) (kwargs : list (string * pyval)) (self : Perplexity) :
  let self' := snd (ask net message model_arg system_role_arg
                      append_history rt kwargs self) in
  self' = self \/
  (append_history = true /\
   exists c, py_truthy c = true /\
     self' = with_history self
               (chat_history self ++
                [user_turn message; assistant_turn c])).
Proof.
  cbv zeta. unfold ask, bind. cbv zeta.
  pose proof (ask_prepare_state message model_arg system_role_arg rt
                kwargs self) as Hst.
  destruct (ask_prepare message model_arg system_role_arg rt kwargs self)
    as [[p|e] s']; simpl in Hst; subst s'; [|by left].
  rewrite orb_false_r. apply ask_send_effect.
Qed.

Lemma chat_effect (net : payload -> http_outcome) (message : string)
    (rt : pyval) (self : Perplexity) :
  let self' := snd (chat net message rt self) in
  self' = self \/
  self' = with_history self (chat_history self ++ [user_turn message]) \/
  exists c, py_truthy c = true /\
    self' = with_history self
              (chat_history self ++
               [user_turn message; assistant_turn c]).
Proof.
  cbv zeta. unfold chat, bind.
  destruct (chat_prepare_effect message rt self) as [[e ->]|[p ->]];
    [by left|].
  destruct (chat_send_effect net rt p
              (with_history self (chat_history self ++ [user_turn message])))
    as [->|(c & Hc & ->)].
  - right. by left.
  - right. right. exists c. split; [done|].
    unfold with_history. simpl. by rewrite <- app_assoc.
Qed.

(** X10: a call of [ask] leaves the client as it was or, when
    [append_history] is true, with the user turn and a non-empty assistant
    turn appended to the transcript; a call of [chat] leaves it as it was,
    or with the user turn appended, or with the user turn and a non-empty
    assistant turn appended. Neither changes the API key, the model, the
    system role, the stored overrides or the headers, and neither removes
    or rewrites a turn. *)
Theorem ask_chat_effect (net : payload -> http_outcome) (message : string)
    (self : Perplexity) :
  (forall model_arg system_role_arg append_history rt kwargs,
     let self' := snd (ask net message model_arg system_role_arg
                         append_history rt kwargs self) in
     self' = self \/
     (append_history = true /\
      exists c, py_truthy c = true /\
        self' = with_history self
                  (chat_history self ++
                   [user_turn message; assistant_turn c]))) /\
  (forall rt,
     let self' := snd (chat net message rt self) in
     self' = self \/
     self' = with_history self (chat_history self ++ [user_turn message]) \/
     exists c, py_truthy c = true /\
       self' = with_history self
                 (chat_history self ++
                  [user_turn message; assistant_turn c])).
Proof.
  split.
  - intros. apply ask_effect.
  - intros. apply chat_effect.
Qed.

(** ** Calls that raise before the request *)

(** X11: when a check of [ask] made before the request raises (an empty
    identity field, a rejected per-call configuration, an invalid response
    type), the call raises that exception whatever the session would have
    answered, and the client is as it was: no request is made. *)
Theorem ask_validation_precedes_request (message : string)
    (model_arg system_role_arg : option string) (append_history : bool)
    (rt : pyval) (kwargs : list (string * pyval)) (self : Perplexity)
    (e : pyexc) :
  fst (ask_prepare message model_arg system_role_arg rt kwargs self)
    = Raise e ->
  forall net,
    ask net message model_arg system_role_arg append_history rt kwargs self
    = (Raise e, self).
Proof.
  intros Hprep net. unfold ask, bind. cbv zeta.
  pose proof (ask_prepare_state message model_arg system_role_arg rt kwargs
                self) as Hst.
  destruct (ask_prepare message model_arg system_role_arg rt kwargs self)
    as [[p|e'] s']; simpl in *; [done|]. congruence.
Qed.

Lemma ask_validation_precedes_request_witness :
    ask (fun _ => Returned response_X) "test" None None true (PStr "bogus") []
        sample_client
    = (Raise (ValueError [Lit "Invalid response_type: "; Fmt (PStr "bogus");
                          Lit ". Valid options are: ";
                          Fmt (PList [PStr "raw"; PStr "text"; PStr "json";
                                      PStr "llm_response"])]),
       sample_client).
Proof.
  apply (ask_validation_precedes_request "test" None None true (PStr "bogus")
           [] sample_client _ eq_refl (fun _ => Returned response_X)).
Defined.

(** X12: when the response type is invalid or an identity field of the
    client is empty, [chat] raises before it appends the user turn and
    before any request: the result does not depend on the session and the
    client, its transcript included, is as it was. *)
Theorem chat_validation_precedes_append (message : string) (rt : pyval)
    (self : Perplexity) (e : pyexc) :
  fst (chat_prepare message rt self) = Raise e ->
  forall net, chat net message rt self = (Raise e, self).
Proof.
  intros Hprep net. unfold chat, bind.
  destruct (chat_prepare_effect message rt self) as [[e' He]|[p Hp]].
  - rewrite He in Hprep |- *. simpl in Hprep. congruence.
  - rewrite Hp in Hprep. discriminate Hprep.
Qed.

Lemma chat_validation_precedes_append_witness :
    chat (fun _ => Returned response_X) "hi" (PInt 3) sample_client
    = (Raise (TypeError [Lit "Invalid argument type: "; FmtType TInt;
                         Lit ". Expected str or "; Lit "ResponseFormatType"]),
       sample_client).
Proof.
  apply (chat_validation_precedes_append "hi" (PInt 3) sample_client _
           eq_refl (fun _ => Returned response_X)).
Defined.

(** ** Successful responses *)

Lemma ask_success_aux (net : payload -> http_outcome) (message : string)
    (model_arg system_role_arg : option string) (append_history : bool)
    (rt : pyval) (kwargs : list (string * pyval)) (self : Perplexity)
    (p : payload) (r : response) (f : formatted) :
  ask_prepare message model_arg system_role_arg rt kwargs self = (Ok p, self) ->
  net p = Returned r -> ok r = true -> _format_response r = Ok f ->
  let out := ask net message model_arg system_role_arg append_history rt
                 kwargs self in
  fst out = formatted_getitem f rt /\
  snd out =
    if append_history && py_truthy (f_llm_response f)
    then with_history self
           (chat_history self ++
            [user_turn message; assistant_turn (f_llm_response f)])
    else self.
Proof.
  intros Hprep Hnet Hok Hf. cbv zeta. unfold ask, bind. cbv zeta.
  rewrite Hprep, orb_false_r.
  unfold ask_send, try_except_RequestException, bind, request, lift.
  rewrite Hnet. simpl. rewrite Hok, Hf.
  destruct (append_history && py_truthy (f_llm_response f)); simpl.
  - unfold with_history. simpl. rewrite <- app_assoc. simpl.
    by getitem_cases f rt.
  - destruct self. by getitem_cases f rt.
Qed.

(** X13: on a successful response [ask] returns the view named by the
    response type. When [append_history] is true and the content of the
    first choice is non-empty, the user turn and the assistant turn holding
    it are appended; when the content is empty or [None] (a body that does
    not parse, or lacks the path) nothing is appended. *)
Theorem ask_success (net : payload -> http_outcome) (message : string)
    (model_arg system_role_arg : option string) (append_history : bool)
    (rt : pyval) (kwargs : list (string * pyval)) (self : Perplexity)
    (p : payload) (r : response) (f : formatted) :
  ask_prepare message model_arg system_role_arg rt kwargs self = (Ok p, self) ->
  net p = Returned r -> ok r = true -> _format_response r = Ok f ->
  let out := ask net message model_arg system_role_arg append_history rt
                 kwargs self in
  fst out = formatted_getitem f rt /\
  snd out =
    if append_history && py_truthy (f_llm_response f)
    then with_history self
           (chat_history self ++
            [user_turn message; assistant_turn (f_llm_response f)])
    else self.
Proof. apply ask_success_aux. Qed.

Lemma ask_success_witness :
  let out := ask (fun _ => Returned response_X) "test" None None true
                 (PStr "llm_response") [] sample_client in
  fst out = Ok (VValue (PStr "X")) /\
  snd out = with_history sample_client
              [ system_turn "test-role"; user_turn "test";
                assistant_turn (PStr "X") ].
Proof.
  apply (ask_success (fun _ => Returned response_X) "test" None None true
           (PStr "llm_response") [] sample_client
           {| p_model := "test-model";
              p_messages := [ system_turn "test-role"; user_turn "test" ];
              p_config := ∅ |}
           response_X
           {| f_raw := response_X; f_text := text response_X;
              f_json := PDict [("choices",
                                PList [PDict [("message",
                                               PDict [("content", PStr "X")])]])];
              f_llm_response := PStr "X" |});
    reflexivity.
Defined.

(** X14: a body that is not JSON is no error: on a successful response
    with such a body [ask] returns [None] under the response types
    ["json"] and ["llm_response"], the body text under ["text"] and the
    response under ["raw"], and appends nothing even when asked to. *)
Theorem ask_unparsable_body (net : payload -> http_outcome) (message : string)
    (model_arg system_role_arg : option string) (append_history : bool)
    (rt : pyval) (kwargs : list (string * pyval)) (self : Perplexity)
    (p : payload) (r : response) :
  ask_prepare message model_arg system_role_arg rt kwargs self = (Ok p, self) ->
  net p = Returned r -> ok r = true -> json_body r = None ->
  let out := ask net message model_arg system_role_arg append_history rt
                 kwargs self in
  snd out = self /\
  (rt = PStr "json" -> fst out = Ok (VValue PNone)) /\
  (rt = PStr "llm_response" -> fst out = Ok (VValue PNone)) /\
  (rt = PStr "text" -> fst out = Ok (VValue (PStr (text r)))) /\
  (rt = PStr "raw" -> fst out = Ok (VResponse r)).
Proof.
  intros Hprep Hnet Hok Hj.
  assert (Hf : _format_response r =
               Ok {| f_raw := r; f_text := text r;
                     f_json := PNone; f_llm_response := PNone |})
    by (unfold _format_response; by rewrite Hj).
  destruct (ask_success_aux net message model_arg system_role_arg
              append_history rt kwargs self p r _ Hprep Hnet Hok Hf)
    as [Hfst Hsnd].
  cbv zeta. rewrite Hfst, Hsnd. simpl. rewrite andb_false_r.
  repeat split; by intros ->.
Qed.

Lemma ask_unparsable_body_witness :
  fst (ask (fun _ => Returned {| status_code := 200; text := "Invalid JSON";
                                 json_body := None |})
           "test" None None false (PStr "json") [] sample_client)
  = Ok (VValue PNone).
Proof.
  destruct (ask_unparsable_body
              (fun _ => Returned {| status_code := 200; text := "Invalid JSON";
                                    json_body := None |})
              "test" None None false (PStr "json") [] sample_client
              {| p_model := "test-model";
                 p_messages := [ system_turn "test-role"; user_turn "test" ];
                 p_config := ∅ |}
              {| status_code := 200; text := "Invalid JSON";
                 json_body := None |}
              eq_refl eq_refl eq_refl eq_refl) as (_ & Hjson & _).
  apply Hjson. reflexivity.
Defined.

(** X15: on a successful response whose first-choice content is empty or
    [None], [chat] returns the view named by the response type and the
    transcript keeps the user turn alone: no assistant turn is appended. *)
Theorem chat_success_empty_content (net : payload -> http_outcome)
    (message : string) (rt : pyval) (self self1 : Perplexity) (p : payload)
    (r : response) (f : formatted) :
  chat_prepare message rt self = (Ok p, self1) ->
  net p = Returned r -> ok r = true -> _format_response r = Ok f ->
  py_truthy (f_llm_response f) = false ->
  let out := chat net message rt self in
  fst out = formatted_getitem f rt /\
  snd out = with_history self (chat_history self ++ [user_turn message]).
Proof.
  intros Hprep Hnet Hok Hf Htr. cbv zeta.
  assert (Hs1 : self1 =
                with_history self (chat_history self ++ [user_turn message])).
  { destruct (chat_prepare_effect message rt self) as [[e He]|[p' Hp]];
      congruence. }
  unfold chat, bind. rewrite Hprep.
  unfold chat_send, try_except_RequestException, bind, request, lift.
  rewrite Hnet. simpl. rewrite Hok, Hf, Htr. simpl. subst self1.
  by getitem_cases f rt.
Qed.

Lemma chat_success_empty_content_witness :
  let r := {| status_code := 200; text := "Invalid JSON"; json_body := None |} in
  let out := chat (fun _ => Returned r) "hi" (PStr "llm_response")
                  sample_client in
  fst out = Ok (VValue PNone) /\
  snd out = with_history sample_client
              [ system_turn "test-role"; user_turn "hi" ].
Proof.
  intros r.
  apply (chat_success_empty_content (fun _ => Returned r) "hi"
           (PStr "llm_response") sample_client
           (with_history sample_client
              [ system_turn "test-role"; user_turn "hi" ])
           {| p_model := "test-model";
              p_messages := [ system_turn "test-role"; user_turn "hi" ];
              p_config := ∅ |}
           r
           {| f_raw := r; f_text := text r;
              f_json := PNone; f_llm_response := PNone |});
    reflexivity.
Defined.

(** ** The payload of [ask] *)

Lemma str_or_nonempty (a : option string) (b : string) :
  b <> "" -> str_or a b <> "".
Proof.
  intros Hb. unfold str_or. destruct a as [s|]; [|done].
  by destruct (String.eqb_spec s "").
Qed.

(** X16: on a client whose API key, model and system role are non-empty,
    with an accepted per-call configuration and a valid response type,
    [ask] gets to its request whatever the [model] and [system_role]
    arguments are (an omitted or empty one falls back to the client's). The
    payload holds that model, two messages (the system turn and the user
    turn, not the transcript) and, of the configuration, only the per-call
    entries that differ from their default: the overrides stored in the
    client are not sent. *)
Theorem ask_payload (message : string)
    (model_arg system_role_arg : option string) (rt : pyval)
    (kwargs : list (string * pyval)) (self : Perplexity) :
  auth_token self <> "" -> model self <> "" -> system_role self <> "" ->
  validate_items kwargs = Ok tt -> validate_response_type rt = Ok tt ->
  exists p,
    ask_prepare message model_arg system_role_arg rt kwargs self
      = (Ok p, self) /\
    p_model p = str_or model_arg (model self) /\
    p_model p <> "" /\
    p_messages p =
      [ system_turn (str_or system_role_arg (system_role self));
        user_turn message ] /\
    (forall k, p_config p !! k = last_override k kwargs) /\
    (forall k v, p_config p !! k = Some v ->
       In (k, v) kwargs /\ py_ne v (default_get k) = true).
Proof.
  intros Ha Hm Hs Hcfg Hrt.
  assert (Hlook : forall k,
            non_default_items kwargs !! k = last_override k kwargs).
  { intros k. unfold non_default_items. rewrite store_items_lookup.
    rewrite lookup_empty. by destruct (last_override k kwargs). }
  eexists. split; [|split; [|split; [|split; [|split]]]].
  - unfold ask_prepare, bind, get_self, _get_validated_config, lift, ret.
    rewrite _validate_required_params_ok; [|by apply str_or_nonempty..].
    simpl. rewrite Hcfg, Hrt. reflexivity.
  - reflexivity.
  - by apply str_or_nonempty.
  - reflexivity.
  - exact Hlook.
  - simpl. intros k v. rewrite Hlook. apply last_override_In.
Qed.

Lemma ask_payload_witness :
  exists p,
    ask_prepare "test" (Some "") None (PStr "text")
      [("top_k", PInt 0); ("top_p", PFloat float_0_8)] client_with_override
      = (Ok p, client_with_override) /\
    p_model p = "test-model" /\
    p_config p !! "temperature" = None /\
    p_config p !! "top_k" = None /\
    p_config p !! "top_p" = Some (PFloat float_0_8).
Proof.
  destruct (ask_payload "test" (Some "") None (PStr "text")
              [("top_k", PInt 0); ("top_p", PFloat float_0_8)]
              client_with_override)
    as (p & Hp & Hmodel & _ & _ & Hcfg & _);
    try discriminate; try reflexivity.
  exists p. split; [exact Hp|]. split; [exact Hmodel|].
  rewrite !Hcfg. by repeat split.
Defined.

(** ** Construction with a configuration *)

Lemma init_Ok_inv (api_key model_name system_role_name : string)
    (cfg : pyval) (self : Perplexity) :
  __init__ api_key model_name system_role_name cfg = Ok self ->
  api_key <> "" /\ model_name <> "" /\ system_role_name <> "" /\
  exists store,
    self = {| auth_token := api_key; model := model_name;
              system_role := system_role_name;
              chat_history := [system_turn system_role_name];
              __config := store;
              session_headers :=
                [ ("Authorization", "Bearer " ++ api_key);
                  ("Content-Type", "application/json") ] |} /\
    ((cfg = PNone /\ store = ∅) \/
     (exists items, cfg = PDict items /\ validate_items items = Ok tt /\
                    store = store_items items ∅)).
Proof.
  unfold __init__, _validate_required_params, bind, get_self. simpl.
  destruct (str_empty api_key) eqn:Ha; [done|].
  destruct (str_empty model_name) eqn:Hm; [done|].
  destruct (str_empty system_role_name) eqn:Hs; [done|].
  apply str_empty_false in Ha, Hm, Hs. unfold ret. simpl.
  destruct cfg; simpl;
    try (unfold _validate_and_set_config, bind, lift; simpl; discriminate).
  - intros [= <-]. repeat split; try done. eexists. split; [reflexivity|].
    by left.
  - unfold _validate_and_set_config, bind, lift, get_self. simpl.
    destruct (validate_items items) as [[]|e] eqn:Hv; [|done]. simpl.
    intros [= <-]. repeat split; try done. eexists. split; [reflexivity|].
    right. by exists items.
Qed.

(** X17: constructing a client with a dictionary as [config] gives what
    constructing it without one and then calling [set_config] with the
    entries of the dictionary gives: the same client, or the same
    exception. *)
Theorem init_with_config (api_key model_name system_role_name : string)
    (items : list (string * pyval)) :
  __init__ api_key model_name system_role_name (PDict items) =
  match __init__ api_key model_name system_role_name PNone with
  | Ok self0 =>
      match set_config items self0 with
      | (Ok _, self1) => Ok self1
      | (Raise e, _) => Raise e
      end
  | Raise e => Raise e
  end.
Proof.
  unfold __init__, _validate_required_params, bind, get_self. simpl.
  destruct (str_empty api_key); [done|].
  destruct (str_empty model_name); [done|].
  destruct (str_empty system_role_name); [done|].
  unfold ret, set_config, _validate_and_set_config, bind, lift, get_self.
  simpl. by destruct (validate_items items) as [[]|e].
Qed.

(** ** Invariants of a client used through its methods *)

Lemma store_items_wf (items : list (string * pyval))
    (store : gmap string pyval) :
  validate_items items = Ok tt -> store_wf store ->
  store_wf (store_items items store).
Proof.
  intros Hv Hwf k v. rewrite store_items_lookup.
  destruct (last_override k items) as [w|] eqn:Hlast; [|apply Hwf].
  intros [= ->]. apply last_override_In in Hlast as [Hin Hne].
  split; [|done]. by apply (validate_items_Ok_inv items).
Qed.

Lemma store_wf_empty : store_wf ∅.
Proof. intros k v. by rewrite lookup_empty. Qed.

(** What holds of a client built from the triple [(a, m, s)]. *)
Lemma after_call_inv (a m s : string) (c : method_call) (self : Perplexity) :
  (auth_token self = a /\ model self = m /\ system_role self = s /\
   session_headers self =
     [ ("Authorization", "Bearer " ++ a);
       ("Content-Type", "application/json") ] /\
   store_wf (__config self) /\ transcript_wf (chat_history self) /\
   exists rest, chat_history self = system_turn s :: rest) ->
  let self' := after_call c self in
  auth_token self' = a /\ model self' = m /\ system_role self' = s /\
  session_headers self' =
    [ ("Authorization", "Bearer " ++ a);
      ("Content-Type", "application/json") ] /\
  store_wf (__config self') /\ transcript_wf (chat_history self') /\
  exists rest, chat_history self' = system_turn s :: rest.
Proof.
  intros (Ha & Hm & Hs & Hh & Hst & Htr & rest & Hrest). cbv zeta.
  assert (Hgrow : forall l : list turn,
            exists rest', (chat_history self ++ l)%list = system_turn s :: rest').
  { intros l. rewrite Hrest. by eexists. }
  destruct c as [kwargs| |net message ma sa ah rt kwargs|net message rt];
    simpl.
  - destruct (set_config_frame kwargs self) as (-> & -> & -> & -> & ->).
    split_and!; [done..| |done|by eauto].
    destruct (validate_items kwargs) as [[]|e] eqn:Hv.
    + rewrite (set_config_ok kwargs self Hv). simpl.
      by apply store_items_wf.
    + unfold set_config.
      by rewrite (_validate_and_set_config_raise (PDict kwargs) e self Hv).
  - split_and!; [done..|apply store_wf_empty|done|by eauto].
  - destruct (ask_effect net message ma sa ah rt kwargs self)
      as [->|(_ & c & Hc & ->)].
    + split_and!; [done..|by eauto].
    + simpl. split_and!; [done..|by apply wf_exchange|apply Hgrow].
  - destruct (chat_effect net message rt self) as [->|[->|(c & Hc & ->)]].
    + split_and!; [done..|by eauto].
    + simpl. split_and!; [done..|by apply wf_user|apply Hgrow].
    + simpl. split_and!; [done..|by apply wf_exchange|apply Hgrow].
Qed.

Lemma after_calls_snoc (cs : list method_call) (c : method_call)
    (self : Perplexity) :
  after_calls (cs ++ [c]) self = after_call c (after_calls cs self).
Proof. unfold after_calls. by rewrite foldl_app. Qed.

(** In a transcript built by the methods, an assistant turn is non-empty
    and directly follows a user turn, and the turns after the first are
    user or assistant turns. *)
Lemma transcript_wf_turns (h : list turn) :
  transcript_wf h ->
  forall (i : nat) (t : turn), h !! i = Some t ->
    (role t = "assistant" ->
     py_truthy (content t) = true /\
     exists (j : nat) (m : string), i = S j /\ h !! j = Some (user_turn m)) /\
    (i <> 0%nat -> role t = "user" \/ role t = "assistant").
Proof.
  induction 1 as [s|h m Hwf IH|h m c Hwf IH Hc]; intros i t Hi.
  - destruct i as [|i]; [|done]. injection Hi as <-. by split.
  - apply lookup_app_Some in Hi as [Hi|[Hlen Hi]].
    + destruct (IH i t Hi) as [Hass Hrole]. split; [|done].
      intros Hr. destruct (Hass Hr) as (Htr & j & m' & -> & Hj).
      split; [done|]. exists j, m'. split; [done|].
      by apply lookup_app_l_Some.
    + destruct (i - length h)%nat as [|n] eqn:Hn; [|done].
      injection Hi as <-. split; [done|]. intros _. by left.
  - apply lookup_app_Some in Hi as [Hi|[Hlen Hi]].
    + destruct (IH i t Hi) as [Hass Hrole]. split; [|done].
      intros Hr. destruct (Hass Hr) as (Htr & j & m' & -> & Hj).
      split; [done|]. exists j, m'. split; [done|].
      by apply lookup_app_l_Some.
    + destruct (i - length h)%nat as [|[|n]] eqn:Hn; [| |done].
      * injection Hi as <-. split; [done|]. intros _. by left.
      * injection Hi as <-. split; [|intros _; by right].
        intros _. split; [done|]. exists (length h), m.
        split; [lia|]. rewrite lookup_app_r by lia.
        by rewrite Nat.sub_diag.
Qed.

Lemma after_calls_inv (a m s : string) (cfg : pyval) (self0 : Perplexity)
    (cs : list method_call) :
  __init__ a m s cfg = Ok self0 ->
  let self := after_calls cs self0 in
  auth_token self = a /\ model self = m /\ system_role self = s /\
  session_headers self =
    [ ("Authorization", "Bearer " ++ a);
      ("Content-Type", "application/json") ] /\
  store_wf (__config self) /\ transcript_wf (chat_history self) /\
  exists rest, chat_history self = system_turn s :: rest.
Proof.
  intros Hinit. cbv zeta.
  induction cs as [|c cs IH] using rev_ind.
  - apply init_Ok_inv in Hinit as (_ & _ & _ & store & -> & Hstore). simpl.
    split_and!; [done..| |apply wf_system|by eauto].
    destruct Hstore as [[_ ->]|(items & _ & Hv & ->)].
    + apply store_wf_empty.
    + apply store_items_wf; [done | apply store_wf_empty].
  - rewrite after_calls_snoc. by apply after_call_inv.
Qed.

(** X18: on a client returned by the constructor and then used through
    [set_config], [reset_config], [ask] and [chat] in any order, whatever
    each call returned or raised: the API key, the model and the system role
    are the constructor's arguments and are non-empty, so the identity
    check of [chat] cannot fail; the headers are unchanged; the first turn
    of the transcript is the system turn; every later turn is a user or an
    assistant turn; and every assistant turn is non-empty and directly
    follows a user turn. *)
Theorem client_invariants (a m s : string) (cfg : pyval)
    (self0 : Perplexity) (cs : list method_call) :
  __init__ a m s cfg = Ok self0 ->
  let self := after_calls cs self0 in
  (auth_token self = a /\ model self = m /\ system_role self = s) /\
  (a <> "" /\ m <> "" /\ s <> "") /\
  _validate_required_params None None None self = (Ok tt, self) /\
  session_headers self =
    [ ("Authorization", "Bearer " ++ a);
      ("Content-Type", "application/json") ] /\
  chat_history self !! 0%nat = Some (system_turn s) /\
  (forall (i : nat) (t : turn), chat_history self !! S i = Some t ->
     role t = "user" \/ role t = "assistant") /\
  (forall (i : nat) (t : turn), chat_history self !! i = Some t ->
     role t = "assistant" ->
     py_truthy (content t) = true /\
     exists (j : nat) (u : string),
       i = S j /\ chat_history self !! j = Some (user_turn u)).
Proof.
  intros Hinit.
  destruct (after_calls_inv a m s cfg self0 cs Hinit)
    as (Ha & Hm & Hs & Hh & _ & Htr & rest & Hrest).
  destruct (init_Ok_inv a m s cfg self0 Hinit) as (Ha' & Hm' & Hs' & _).
  cbv zeta. split_and!; try done.
  - apply _validate_required_params_ok; simpl; congruence.
  - by rewrite Hrest.
  - intros i t Hi. by apply (transcript_wf_turns _ Htr (S i) t Hi).
  - intros i t Hi. by apply (transcript_wf_turns _ Htr i t Hi).
Qed.

Lemma client_invariants_witness :
  let self := after_calls
                [ call_chat (fun _ => Failed timeout_error) "hi"
                    (PStr "llm_response");
                  call_set_config [("top_k", PInt 5)];
                  call_ask (fun _ => Returned response_X) "test" None None
                    true (PStr "text") [] ]
                sample_client in
  chat_history self !! 0%nat = Some (system_turn "test-role") /\
  auth_token self = "test-api-key".
Proof.
  intros self.
  destruct (client_invariants "test-api-key" "test-model" "test-role" PNone
              sample_client
              [ call_chat (fun _ => Failed timeout_error) "hi"
                  (PStr "llm_response");
                call_set_config [("top_k", PInt 5)];
                call_ask (fun _ => Returned response_X) "test" None None
                  true (PStr "text") [] ]
              eq_refl)
    as ((Ha & _) & _ & _ & _ & H0 & _).
  split; [exact H0 | exact Ha].
Defined.

(** X19: on such a client every stored override names a key of the default
    mapping, passes the type check of [validate_config] and differs from
    its default; so the mapping [config] returns always has the ten keys
    whose default is not [None], has [max_tokens] exactly when an override
    for it is stored, and never has another key. *)
Theorem config_keys (a m s : string) (cfg : pyval)
    (self0 : Perplexity) (cs : list method_call) :
  __init__ a m s cfg = Ok self0 ->
  let self := after_calls cs self0 in
  store_wf (__config self) /\
  forall k, is_Some (config self !! k) <->
            (is_Some (default_config !! k) /\ k <> "max_tokens") \/
            (k = "max_tokens" /\ is_Some (__config self !! k)).
Proof.
  intros Hinit. cbv zeta.
  destruct (after_calls_inv a m s cfg self0 cs Hinit)
    as (_ & _ & _ & _ & Hwf & _).
  split; [exact Hwf|]. intros k.
  set (self := after_calls cs self0) in *.
  assert (Hstored : forall v, __config self !! k = Some v ->
            is_none v = false /\ is_Some (default_config !! k)).
  { intros v Hv. destruct (Hwf k v Hv) as [Hrej Hne].
    unfold entry_rejected in Hrej. unfold default_get in Hne.
    destruct (default_config !! k) as [d|] eqn:Hd; [|done].
    split; [|by eexists].
    destruct v; try done. simpl in Hne.
    default_cases Hd; done. }
  unfold is_Some. split.
  - intros [v [Hv Hnone]%config_lookup].
    apply lookup_union_Some_raw in Hv as [Hv|[Hst Hv]].
    + destruct (Hstored v Hv) as [_ Hd].
      destruct (decide (k = "max_tokens")) as [->|Hk]; [|by left].
      right. by eauto.
    + left. split; [by eexists|]. intros ->.
      change (default_config !! "max_tokens") with (Some PNone) in Hv.
      by simplify_eq.
  - intros [[[d Hd] Hk]|[-> [v Hv]]].
    + destruct (__config self !! k) as [v|] eqn:Hv.
      * exists v. apply config_lookup.
        destruct (Hstored v eq_refl) as [Hn _].
        split; [|done]. apply lookup_union_Some_raw. by left.
      * exists d. apply config_lookup. split.
        -- apply lookup_union_Some_raw. by right.
        -- default_cases Hd; done.
    + exists v. apply config_lookup. destruct (Hstored v Hv) as [Hn _].
      split; [|done]. apply lookup_union_Some_raw. by left.
Qed.

Lemma config_keys_witness :
  is_Some (config (after_calls [call_set_config [("top_k", PInt 5)]]
                     sample_client) !! "temperature").
Proof.
  destruct (config_keys "test-api-key" "test-model" "test-role" PNone
              sample_client [call_set_config [("top_k", PInt 5)]] eq_refl)
    as [_ Hkeys].
  apply Hkeys. left. split; [by eexists | discriminate].
Defined.

(** ** [ask] appends all or nothing *)

Lemma validate_response_type_Ok_inv (rt : pyval) :
  validate_response_type rt = Ok tt ->
  In rt response_type_strings \/ exists m, rt = PEnum m.
Proof.
  intros Hv. pose proof (validate_response_type_cases_aux rt) as Hc.
  destruct rt; try (rewrite Hv in Hc; done); [|right; by eexists].
  left. rewrite Hv in Hc. cbn [existsb] in Hc. revert Hc. simpl.
  destruct (String.eqb_spec s "raw") as [->|_]; [by left|].
  destruct (String.eqb_spec s "text") as [->|_]; [by right; left|].
  destruct (String.eqb_spec s "json") as [->|_]; [by right; right; left|].
  destruct (String.eqb_spec s "llm_response") as [->|_];
    [by right; right; right; left|].
  by intros [msg Hmsg].
Qed.

Lemma ask_prepare_Ok_inv (message : string)
    (model_arg system_role_arg : option string) (rt : pyval)
    (kwargs : list (string * pyval)) (self self1 : Perplexity) (p : payload) :
  ask_prepare message model_arg system_role_arg rt kwargs self = (Ok p, self1) ->
  validate_response_type rt = Ok tt /\ self1 = self.
Proof.
  intros Hprep.
  pose proof (ask_prepare_state message model_arg system_role_arg rt kwargs
                self) as Hst.
  rewrite Hprep in Hst. simpl in Hst. split; [|done].
  revert Hprep.
  unfold ask_prepare, bind, get_self, _get_validated_config, lift, ret.
  destruct (_validate_required_params _ _ _ self) as [[[]|?] ?]; [|done].
  simpl. destruct (validate_items kwargs) as [[]|?]; [|done].
  by destruct (validate_response_type rt) as [[]|?].
Qed.

Lemma ask_send_raise_keeps_state (net : payload -> http_outcome)
    (message : string) (append_history : bool) (rt : pyval) (p : payload)
    (self : Perplexity) (e : pyexc) :
  In rt response_type_strings ->
  fst (ask_send net message append_history rt p self) = Raise e ->
  snd (ask_send net message append_history rt p self) = self.
Proof.
  intros Hrt. unfold ask_send, try_except_RequestException, bind, request.
  destruct (net p) as [r|e']; cbn [ret raise].
  - destruct (ok r) eqn:Hok.
    + unfold lift. destruct (_format_response r) as [f|e''].
      * destruct (formatted_getitem_string f rt Hrt) as [w ->].
        by destruct (append_history && py_truthy (f_llm_response f)).
      * destruct e'' as [| | | |e0| | |]; try done.
        by destruct (raise_error_message_raises (A:=view) e0 self) as [x ->].
    + unfold lift. rewrite (not_ok_raise_for_status r Hok).
      by destruct (raise_error_message_raises (A:=view)
                     {| exc_str := "HTTPError"; exc_response := Some r |}
                     self) as [x ->].
  - by destruct (raise_error_message_raises (A:=view) e' self) as [x ->].
Qed.

(** X20: when the response type is not a member of the enum, a call of
    [ask] that raises, for whatever reason and also with
    [append_history] true, leaves the client as it was: the two turns are
    appended only by a call that returns. *)
Theorem ask_raise_keeps_client (net : payload -> http_outcome)
    (message : string) (model_arg system_role_arg : option string)
    (append_history : bool) (rt : pyval) (kwargs : list (string * pyval))
    (self : Perplexity) (e : pyexc) :
  isinstance rt TResponseFormatType = false ->
  fst (ask net message model_arg system_role_arg append_history rt kwargs self)
    = Raise e ->
  snd (ask net message model_arg system_role_arg append_history rt kwargs self)
    = self.
Proof.
  intros Hrt. unfold ask, bind. cbv zeta.
  destruct (ask_prepare message model_arg system_role_arg rt kwargs self)
    as [[p|e'] s'] eqn:Hprep.
  - apply ask_prepare_Ok_inv in Hprep as [Hv ->].
    apply validate_response_type_Ok_inv in Hv as [Hin|[m ->]]; [|done].
    intros He. by apply (ask_send_raise_keeps_state _ _ _ _ _ _ e).
  - intros _.
    pose proof (ask_prepare_state message model_arg system_role_arg rt kwargs
                  self) as Hst.
    by rewrite Hprep in Hst.
Qed.

Lemma ask_raise_keeps_client_witness :
  snd (ask (fun _ => Returned (response_with_status 500)) "test" None None
           true (PStr "llm_response") [] sample_client)
  = sample_client.
Proof.
  apply (ask_raise_keeps_client
           (fun _ => Returned (response_with_status 500)) "test" None None
           true (PStr "llm_response") [] sample_client
           (PerplexityAPIError
              [Lit "Request failed: "; Fmt (PStr "HTTPError");
               Lit (newline ++ "Status code: "); Fmt (PInt 500);
               Lit (newline ++ "Response: "); Fmt (PStr "error")]
              (Some 500)
              {| exc_str := "HTTPError";
                 exc_response := Some (response_with_status 500) |}));
    reflexivity.
Defined.

(** ** Values equal to the default *)

(** X21: an accepted value that compares equal to the default of its key
    is not stored, also when it is of another type: [False] for [top_k]
    (default 0) or [True] for [frequency_penalty] (default 1) leave the
    client as it was. *)
Theorem set_config_equal_to_default (self : Perplexity) (k : string)
    (d v : pyval) :
  default_config !! k = Some d ->
  entry_rejected k v = false -> py_eq v d = true ->
  set_config [(k, v)] self = (Ok tt, self).
Proof.
  intros Hk Hrej Heq.
  rewrite set_config_ok.
  - simpl. unfold py_ne. rewrite (default_get_lookup k d Hk), Heq. simpl.
    apply set_store_same.
  - by rewrite validate_items_cons, Hrej.
Qed.

Lemma set_config_equal_to_default_witness :
  set_config [("frequency_penalty", PBool true)] client_with_override
  = (Ok tt, client_with_override).
Proof.
  apply (set_config_equal_to_default client_with_override
           "frequency_penalty" (PInt 1) (PBool true)); reflexivity.
Defined.
